(** * Rate limiting and audit logging core of edurank-glow

    A shallow embedding of
    - [supabase/functions/_shared/rateLimit.ts] ([checkRateLimit],
      [logRateLimitRequest], [DEFAULT_RATE_LIMITS]), and
    - the PL/pgSQL functions [get_rate_limit_status] and [log_audit_event]
      of the migration [20260122000000_add_rate_limiting_and_audit_tables.sql],
    with the properties the specification states about them.

    Conventions.
    - A timestamp is an integer number of milliseconds since the epoch
      ([Date.getTime()]); PostgreSQL's [timestamptz] is read on the same axis.
      The session time zone is UTC, so [INTERVAL '1 day'] is 24 hours.
    - The limits and counts, JavaScript [number]s holding integers, are [Z].
    - A value that may be [null] / [undefined] / SQL [NULL] is an [option]. *)

From Stdlib Require Import ZArith List String Ascii Bool Lia DecimalString.
Import ListNotations.
Open Scope string_scope.
Open Scope Z_scope.

(** ** Common vocabulary *)

Definition Timestamp := Z.
Definition uuid := string.

(** [`${n}`] for an integer-valued number. *)
Definition number_to_string (n : Z) : string :=
  NilZero.string_of_int (Z.to_int n).

(** [m] has [s] as a contiguous part. *)
Definition Contains (s m : string) : Prop :=
  exists pre post, m = pre ++ s ++ post.

(** What an awaited promise, or a PL/pgSQL call, comes back with. *)
Inductive Outcome (E A : Type) : Type :=
| Returned (a : A)
| Thrown (e : E).
Arguments Returned {E A} a.
Arguments Thrown {E A} e.

(** ** The edge-function side: rateLimit.ts *)

Module RateLimit.

(** *** The Supabase client, seen from the caller *)

(** The [error] member of a PostgREST response. *)
Record PostgrestError := {
  pg_code : string;
  pg_message : string
}.

(** A rejected promise's reason. *)
Record JsError := {
  js_name : string;
  js_message : string
}.

Inductive Value :=
| VText (s : string)
| VTime (t : Timestamp)
| VBool (b : bool)
| VNull.

(** One call of the query builder's filter methods. *)
Inductive Filter :=
| Eq (column : string) (v : Value)     (* .eq(column, v) *)
| Gte (column : string) (v : Value).   (* .gte(column, v) *)

(** The object handed to [.insert(...)] by [logRateLimitRequest]. *)
Record InsertPayload := {
  ins_user_id : string;
  ins_operation : string;
  ins_success : bool;
  ins_metadata : option (list (string * string));
  ins_ip_address : Value
}.

(** A request the client sends when the builder is awaited. *)
Inductive Request :=
| SelectCount (table : string) (filters : list Filter)
    (* .from(table).select('*', { count: 'exact', head: true }).<filters> *)
| Insert (table : string) (row : InsertPayload).
    (* .from(table).insert(row) *)

(** [{ count, error }] as destructured by the caller. *)
Record Response := {
  count : option Z;
  error : option PostgrestError
}.

Inductive ConsoleArg :=
| OfPostgrest (e : PostgrestError)
| OfJs (e : JsError).

(** One [console.error(label, value)]. *)
Definition ConsoleLine := (string * ConsoleArg)%type.

Section Client.

(** The client is [any] in the source: its backend is some state [Backend]
    and [serve] is what awaiting a request against it gives, a response or a
    rejection, and the backend afterwards. *)
Variable Backend : Type.
Variable serve : Backend -> Request -> Outcome JsError Response * Backend.

Record World := {
  console : list ConsoleLine;
  requests : list Request;
  backend : Backend
}.

(** *** A small monad: state passing over [World], with exceptions *)

Definition IO (A : Type) : Type := World -> Outcome JsError A * World.

Definition ret {A} (a : A) : IO A := fun w => (Returned a, w).

Definition bind {A B} (m : IO A) (k : A -> IO B) : IO B :=
  fun w =>
    match m w with
    | (Returned a, w') => k a w'
    | (Thrown e, w') => (Thrown e, w')
    end.

Definition try_catch {A} (body : IO A) (handler : JsError -> IO A) : IO A :=
  fun w =>
    match body w with
    | (Returned a, w') => (Returned a, w')
    | (Thrown e, w') => handler e w'
    end.

Definition await (req : Request) : IO Response :=
  fun w =>
    let (o, b') := serve (backend w) req in
    (o, {| console := console w;
           requests := requests w ++ [req];
           backend := b' |}).

Definition console_error (label : string) (v : ConsoleArg) : IO unit :=
  fun w =>
    (Returned tt, {| console := console w ++ [(label, v)];
                     requests := requests w;
                     backend := backend w |}).

Notation "x <- m ;; k" := (bind m (fun x => k))
  (at level 61, m at next level, right associativity).
Notation "m ;;; k" := (bind m (fun _ => k))
  (at level 61, right associativity).

(** *** rateLimit.ts *)

Record RateLimitConfig := {
  operation : string;
  userId : string;
  limitsPerHour : Z;
  limitsPerDay : Z
}.

Record RateLimitResult := {
  allowed : bool;
  remaining : Z;
  resetAtHour : Timestamp;
  resetAtDay : Timestamp;
  message : option string
}.

(** [count || 0] *)
Definition or_zero (c : option Z) : Z :=
  match c with
  | Some n => n
  | None => 0
  end.

(** The query both counts are read with, for the cutoff [since]. *)
Definition count_query (config : RateLimitConfig) (since : Timestamp)
  : Request :=
  SelectCount "rate_limit_logs"
    [ Eq "user_id" (VText (userId config));
      Eq "operation" (VText (operation config));
      Gte "created_at" (VTime since) ].

Definition hourly_message (config : RateLimitConfig) : string :=
  "Rate limit exceeded for " ++ operation config ++ ". Max "
  ++ number_to_string (limitsPerHour config)
  ++ " requests per hour. Try again in an hour.".

Definition daily_message (config : RateLimitConfig) : string :=
  "Daily limit exceeded for " ++ operation config ++ ". Max "
  ++ number_to_string (limitsPerDay config)
  ++ " requests per day. Try again tomorrow.".

Definition check_failed_message : string :=
  "Rate limit check failed (allowing request)".

(** [now] is the reading of [new Date()] at entry. *)
Definition checkRateLimit (config : RateLimitConfig) (now : Timestamp)
  : IO RateLimitResult :=
  let hourAgo := now - 60 * 60 * 1000 in
  let dayAgo := now - 24 * 60 * 60 * 1000 in
  try_catch
    ((* Get hourly count *)
     hourly <- await (count_query config hourAgo) ;;
     match error hourly with
     | Some hourlyError =>
         console_error "Error checking hourly rate limit:"
           (OfPostgrest hourlyError) ;;;
         ret {| allowed := true;
                remaining := limitsPerHour config;
                resetAtHour := now + 60 * 60 * 1000;
                resetAtDay := now + 24 * 60 * 60 * 1000;
                message := Some check_failed_message |}
     | None =>
         (* Get daily count *)
         daily <- await (count_query config dayAgo) ;;
         match error daily with
         | Some dailyError =>
             console_error "Error checking daily rate limit:"
               (OfPostgrest dailyError) ;;;
             ret {| allowed := true;
                    remaining := limitsPerDay config;
                    resetAtHour := now + 60 * 60 * 1000;
                    resetAtDay := now + 24 * 60 * 60 * 1000;
                    message := Some check_failed_message |}
         | None =>
             let hourlyUsed := or_zero (count hourly) in
             let dailyUsed := or_zero (count daily) in
             (* Check limits *)
             if limitsPerHour config <=? hourlyUsed then
               ret {| allowed := false;
                      remaining := 0;
                      resetAtHour := now + 60 * 60 * 1000;
                      resetAtDay := now + 24 * 60 * 60 * 1000;
                      message := Some (hourly_message config) |}
             else if limitsPerDay config <=? dailyUsed then
               ret {| allowed := false;
                      remaining := 0;
                      resetAtHour := now + 60 * 60 * 1000;
                      resetAtDay := now + 24 * 60 * 60 * 1000;
                      message := Some (daily_message config) |}
             else
               (* Request is allowed *)
               ret {| allowed := true;
                      remaining := limitsPerHour config - hourlyUsed - 1;
                      resetAtHour := now + 60 * 60 * 1000;
                      resetAtDay := now + 24 * 60 * 60 * 1000;
                      message := None |}
         end
     end)
    (fun err =>
       console_error "Unexpected error in rate limit check:" (OfJs err) ;;;
       ret {| allowed := true;
              remaining := limitsPerHour config;
              resetAtHour := now + 60 * 60 * 1000;
              resetAtDay := now + 24 * 60 * 60 * 1000;
              message := None |}).

(** The response of the insert is not looked at; only a rejection reaches
    the [catch]. *)
Definition logRateLimitRequest (user : string) (op : string) (success : bool)
    (metadata : option (list (string * string))) : IO unit :=
  try_catch
    (_r <- await (Insert "rate_limit_logs"
                    {| ins_user_id := user;
                       ins_operation := op;
                       ins_success := success;
                       ins_metadata := metadata;
                       ins_ip_address := VNull |}) ;;
     ret tt)
    (fun err =>
       console_error "Error logging rate limit request:" (OfJs err)).

End Client.

Arguments console {Backend} w.
Arguments requests {Backend} w.
Arguments backend {Backend} w.
Arguments ret {Backend A} a.
Arguments bind {Backend A B} m k.
Arguments try_catch {Backend A} body handler.
Arguments console_error {Backend} label v.

(** Suggested rate limits for different operations. *)
Record SuggestedLimits := {
  suggested_limitsPerHour : Z;
  suggested_limitsPerDay : Z;
  costCredits : Z;
  description : string
}.

Definition DEFAULT_RATE_LIMITS : list (string * SuggestedLimits) :=
  [ ("generate-notes",
     {| suggested_limitsPerHour := 3; suggested_limitsPerDay := 10;
        costCredits := 4; description := "AI notes generation from videos" |});
    ("generate-quiz",
     {| suggested_limitsPerHour := 5; suggested_limitsPerDay := 20;
        costCredits := 4; description := "Quiz generation from notes" |});
    ("find-video",
     {| suggested_limitsPerHour := 10; suggested_limitsPerDay := 50;
        costCredits := 1; description := "Video discovery" |});
    ("adaptive-question",
     {| suggested_limitsPerHour := 20; suggested_limitsPerDay := 100;
        costCredits := 0; description := "Adaptive question generation" |});
    ("analyze-weakness",
     {| suggested_limitsPerHour := 3; suggested_limitsPerDay := 15;
        costCredits := 0; description := "Weakness analysis" |});
    ("fix-weak-areas-quiz",
     {| suggested_limitsPerHour := 3; suggested_limitsPerDay := 10;
        costCredits := 4; description := "Weak areas quiz generation" |}) ].

End RateLimit.

(** ** The database: the two tables of the migration *)

Module Schema.

(** A row of [public.rate_limit_logs]. *)
Record RateLimitLog := {
  rl_id : uuid;
  rl_user_id : uuid;
  rl_operation : string;
  rl_success : bool;
  rl_metadata : option (list (string * string));
  rl_ip_address : option string;
  rl_created_at : Timestamp
}.

(** A row of [public.audit_logs]. *)
Record AuditLog := {
  al_id : uuid;
  al_user_id : uuid;
  al_action : string;
  al_resource_type : string;
  al_resource_id : option string;
  al_metadata : option (list (string * string));
  al_ip_address : option string;
  al_user_agent : option string;
  al_created_at : Timestamp
}.

Record Db := {
  auth_users : list uuid;          (* auth.users(id) *)
  rate_limit_logs : list RateLimitLog;
  audit_logs : list AuditLog
}.

(** What the server-side defaults evaluate to while one statement runs. *)
Record Session := {
  auth_uid : option uuid;          (* auth.uid(): NULL without a user token *)
  now : Timestamp;                 (* NOW() *)
  gen_random_uuid : uuid           (* the next gen_random_uuid() *)
}.

Record PgException := {
  sqlstate : string;
  pg_text : string
}.

Definition not_null_violation (column : string) : PgException :=
  {| sqlstate := "23502"; pg_text := column |}.
Definition foreign_key_violation (column : string) : PgException :=
  {| sqlstate := "23503"; pg_text := column |}.
Definition unique_violation (column : string) : PgException :=
  {| sqlstate := "23505"; pg_text := column |}.

End Schema.

(** ** The PL/pgSQL functions of the migration *)

Module Pg.
Import Schema.

(** *** SQL's three-valued logic: [None] is NULL (unknown) *)

Definition bool3 := option bool.

Definition eq3_text (a b : option string) : bool3 :=
  match a, b with
  | Some x, Some y => Some (String.eqb x y)
  | _, _ => None
  end.

Definition neq3_text (a b : option string) : bool3 :=
  option_map negb (eq3_text a b).

Definition gt3_time (a b : option Timestamp) : bool3 :=
  match a, b with
  | Some x, Some y => Some (y <? x)
  | _, _ => None
  end.

Definition and3 (a b : bool3) : bool3 :=
  match a, b with
  | Some false, _ => Some false
  | _, Some false => Some false
  | Some true, Some true => Some true
  | _, _ => None
  end.

(** [IF c THEN], [WHERE c], [CASE WHEN c]: taken only when [c] is TRUE. *)
Definition is_true (c : bool3) : bool :=
  match c with
  | Some true => true
  | _ => false
  end.

Definition interval_1_hour : Z := 60 * 60 * 1000.
Definition interval_1_day : Z := 24 * 60 * 60 * 1000.

(** A table the function's statements touched, in order. *)
Inductive Access :=
| Scan (table : string)
| InsertInto (table : string).

(** [WHERE user_id = p_user_id AND operation = p_operation
      AND created_at > cutoff] *)
Definition in_window (p_user_id : option uuid) (p_operation : option string)
    (cutoff : Timestamp) (r : RateLimitLog) : bool :=
  is_true
    (and3 (and3 (eq3_text (Some (rl_user_id r)) p_user_id)
                (eq3_text (Some (rl_operation r)) p_operation))
          (gt3_time (Some (rl_created_at r)) (Some cutoff))).

(** [COUNT( * )]; the INTEGER variables that receive it hold any count below
    2^31, and a log of that size is outside this model. *)
Definition COUNT (rows : list RateLimitLog) : Z := Z.of_nat (List.length rows).

(** [MIN(created_at)]: NULL over no rows. *)
Fixpoint MIN_created_at (rows : list RateLimitLog) : option Timestamp :=
  match rows with
  | [] => None
  | r :: rest =>
      match MIN_created_at rest with
      | None => Some (rl_created_at r)
      | Some m => Some (Z.min (rl_created_at r) m)
      end
  end.

Record RateLimitStatus := {
  requests_this_hour : Z;
  requests_this_day : Z;
  hour_resets_at : option Timestamp;
  day_resets_at : option Timestamp
}.

Definition unauthorized : PgException :=
  {| sqlstate := "P0001";
     pg_text := "Unauthorized: Users can only check their own rate limits" |}.

(** [public.get_rate_limit_status(p_user_id, p_operation)]: the row it
    returns or the exception it raises, and the tables it read. *)
Definition get_rate_limit_status (s : Session) (db : Db)
    (p_user_id : option uuid) (p_operation : option string)
  : Outcome PgException RateLimitStatus * list Access :=
  (* Security: Only allow users to check their own rate limits *)
  if is_true (neq3_text p_user_id (auth_uid s)) then
    (Thrown unauthorized, [])
  else
    let v_hour_ago := now s - interval_1_hour in
    let v_day_ago := now s - interval_1_day in
    (* Get hourly count and oldest request time *)
    let hour_rows :=
      filter (in_window p_user_id p_operation v_hour_ago)
             (rate_limit_logs db) in
    let v_hour_count := COUNT hour_rows in
    let v_oldest_hour_time := MIN_created_at hour_rows in
    (* Get daily count and oldest request time *)
    let day_rows :=
      filter (in_window p_user_id p_operation v_day_ago)
             (rate_limit_logs db) in
    let v_day_count := COUNT day_rows in
    let v_oldest_day_time := MIN_created_at day_rows in
    (* Return actual expiration times based on oldest request in window *)
    (Returned
       {| requests_this_hour := v_hour_count;
          requests_this_day := v_day_count;
          hour_resets_at :=
            if 0 <? v_hour_count
            then option_map (fun t => t + interval_1_hour) v_oldest_hour_time
            else None;
          day_resets_at :=
            if 0 <? v_day_count
            then option_map (fun t => t + interval_1_day) v_oldest_day_time
            else None |},
     [Scan "rate_limit_logs"; Scan "rate_limit_logs"]).

(** The [INSERT INTO public.audit_logs ... RETURNING id] of
    [log_audit_event], under the table's constraints: the NOT NULL columns,
    the primary key, the reference to [auth.users]. *)
Definition insert_audit_log (s : Session) (db : Db)
    (user_id : option uuid) (action resource_type resource_id : option string)
    (metadata : option (list (string * string)))
  : Outcome PgException uuid * Db :=
  match user_id, action, resource_type with
  | None, _, _ => (Thrown (not_null_violation "user_id"), db)
  | Some _, None, _ => (Thrown (not_null_violation "action"), db)
  | Some _, Some _, None => (Thrown (not_null_violation "resource_type"), db)
  | Some u, Some a, Some rt =>
      let id := gen_random_uuid s in
      if existsb (fun r => String.eqb (al_id r) id) (audit_logs db) then
        (Thrown (unique_violation "id"), db)
      else if negb (existsb (String.eqb u) (auth_users db)) then
        (Thrown (foreign_key_violation "user_id"), db)
      else
        (Returned id,
         {| auth_users := auth_users db;
            rate_limit_logs := rate_limit_logs db;
            audit_logs :=
              audit_logs db ++
              [{| al_id := id;
                  al_user_id := u;
                  al_action := a;
                  al_resource_type := rt;
                  al_resource_id := resource_id;
                  al_metadata := metadata;
                  al_ip_address := None;
                  al_user_agent := None;
                  al_created_at := now s |}] |})
  end.

(** [public.log_audit_event(...)]: the body has no EXCEPTION block, so what
    the INSERT raises is what the function raises. *)
Definition log_audit_event (s : Session) (db : Db)
    (p_user_id : option uuid)
    (p_action p_resource_type p_resource_id : option string)
    (p_metadata : option (list (string * string)))
  : Outcome PgException uuid * Db :=
  match insert_audit_log s db p_user_id p_action p_resource_type
          p_resource_id p_metadata with
  | (Returned v_audit_id, db') => (Returned v_audit_id, db')
  | (Thrown e, db') => (Thrown e, db')
  end.

End Pg.

(** ** The store behind the client: PostgREST over [rate_limit_logs]

    What the service-role client of the edge functions reaches when the
    store is up: the requests of rateLimit.ts answered from the table.  A
    request outside what this model covers (another table, a column or an
    operand it does not know) is answered with an error response. *)

Module PostgREST.
Import Schema RateLimit.

Inductive ColType := TText | TTime | TBool.

Definition ColType_eqb (a b : ColType) : bool :=
  match a, b with
  | TText, TText | TTime, TTime | TBool, TBool => true
  | _, _ => false
  end.

Definition column_type (c : string) : option ColType :=
  if String.eqb c "id" then Some TText
  else if String.eqb c "user_id" then Some TText
  else if String.eqb c "operation" then Some TText
  else if String.eqb c "success" then Some TBool
  else if String.eqb c "created_at" then Some TTime
  else None.

Definition value_type (v : Value) : option ColType :=
  match v with
  | VText _ => Some TText
  | VTime _ => Some TTime
  | VBool _ => Some TBool
  | VNull => None
  end.

Definition column (r : RateLimitLog) (c : string) : Value :=
  if String.eqb c "id" then VText (rl_id r)
  else if String.eqb c "user_id" then VText (rl_user_id r)
  else if String.eqb c "operation" then VText (rl_operation r)
  else if String.eqb c "success" then VBool (rl_success r)
  else if String.eqb c "created_at" then VTime (rl_created_at r)
  else VNull.

Definition same_type (c : string) (v : Value) : bool :=
  match column_type c, value_type v with
  | Some a, Some b => ColType_eqb a b
  | _, _ => false
  end.

Definition filter_ok (f : Filter) : bool :=
  match f with
  | Eq c v => same_type c v
  | Gte c v =>
      match column_type c, value_type v with
      | Some TTime, Some TTime => true
      | _, _ => false
      end
  end.

Definition value_eqb (a b : Value) : bool :=
  match a, b with
  | VText x, VText y => String.eqb x y
  | VTime x, VTime y => x =? y
  | VBool x, VBool y => Bool.eqb x y
  | _, _ => false
  end.

(** [a >= b] on timestamps. *)
Definition value_geb (a b : Value) : bool :=
  match a, b with
  | VTime x, VTime y => y <=? x
  | _, _ => false
  end.

Definition holds (r : RateLimitLog) (f : Filter) : bool :=
  match f with
  | Eq c v => value_eqb (column r c) v
  | Gte c v => value_geb (column r c) v
  end.

Definition bad_request : PostgrestError :=
  {| pg_code := "PGRST100"; pg_message := "request not understood" |}.

Definition constraint_error (e : PgException) : PostgrestError :=
  {| pg_code := sqlstate e; pg_message := pg_text e |}.

(** The exact count of the rows that pass every filter. *)
Definition select_count (db : Db) (table : string) (filters : list Filter)
  : Response :=
  if String.eqb table "rate_limit_logs" && forallb filter_ok filters then
    {| count :=
         Some (Z.of_nat (List.length
                 (filter (fun r => forallb (holds r) filters)
                         (rate_limit_logs db))));
       error := None |}
  else
    {| count := None; error := Some bad_request |}.

(** The insert, with the columns the payload leaves out at their defaults,
    under the primary key and the reference to [auth.users]. *)
Definition insert_row (s : Session) (db : Db) (table : string)
    (row : InsertPayload) : Response * Db :=
  if String.eqb table "rate_limit_logs" then
    if existsb (fun r => String.eqb (rl_id r) (gen_random_uuid s))
               (rate_limit_logs db) then
      ({| count := None;
          error := Some (constraint_error (unique_violation "id")) |}, db)
    else if negb (existsb (String.eqb (ins_user_id row)) (auth_users db)) then
      ({| count := None;
          error := Some (constraint_error (foreign_key_violation "user_id")) |},
       db)
    else
      ({| count := None; error := None |},
       {| auth_users := auth_users db;
          rate_limit_logs :=
            rate_limit_logs db ++
            [{| rl_id := gen_random_uuid s;
                rl_user_id := ins_user_id row;
                rl_operation := ins_operation row;
                rl_success := ins_success row;
                rl_metadata := ins_metadata row;
                rl_ip_address := None;
                rl_created_at := now s |}];
          audit_logs := audit_logs db |})
  else
    ({| count := None; error := Some bad_request |}, db).

(** The backend state: the database and the server-side defaults of the
    statement being run. *)
Record Server := {
  db : Db;
  session : Session
}.

Definition serve (sv : Server) (req : Request)
  : Outcome JsError Response * Server :=
  match req with
  | SelectCount table filters =>
      (Returned (select_count (db sv) table filters), sv)
  | Insert table row =>
      let (resp, db') := insert_row (session sv) (db sv) table row in
      (Returned resp, {| db := db'; session := session sv |})
  end.

(** The Window Counter of [checkRateLimit]: the count its query gets for
    [(user, op)] and the cutoff [since] from the table [rows]. *)
Definition window_count (rows : list RateLimitLog) (user op : string)
    (since : Timestamp) : option Z :=
  count (select_count
           {| auth_users := []; rate_limit_logs := rows; audit_logs := [] |}
           "rate_limit_logs"
           [ Eq "user_id" (VText user);
             Eq "operation" (VText op);
             Gte "created_at" (VTime since) ]).

(** What the query of [checkRateLimit] selects: the rows of the pair created
    at or after the cutoff ([.gte]). *)
Definition selected (user op : string) (since : Timestamp) (r : RateLimitLog)
  : bool :=
  String.eqb (rl_user_id r) user
  && String.eqb (rl_operation r) op
  && (since <=? rl_created_at r).

End PostgREST.

(** ** A gated edge function

    How the edge functions are to use the utility (ISSUES_FIXED_SUMMARY.md,
    "How to use in backend functions"): check the limit, answer 429 when the
    request is not allowed, else process it and log it. *)

Module Gate.
Import Schema RateLimit.

(** [true] when the request was processed, [false] when it was answered
    with 429. *)
Definition gated_request (Backend : Type)
    (serve : Backend -> Request -> Outcome JsError Response * Backend)
    (config : RateLimitConfig) (now : Timestamp) : IO Backend bool :=
  bind (checkRateLimit Backend serve config now) (fun rateLimitResult =>
    if negb (allowed rateLimitResult) then
      ret false
    else
      (* Process request... then log the request for auditing *)
      bind (logRateLimitRequest Backend serve
              (userId config) (operation config) true None)
           (fun _ => ret true)).

(** One arrival at the function: the edge function's clock when it checks,
    and the database's clock and next identifier when the request is
    logged. *)
Record Call := {
  js_now : Timestamp;
  db_now : Timestamp;
  new_id : uuid
}.

(** The database session in which the request of [c] is logged. *)
Definition logging_session (c : Call) : Session :=
  {| auth_uid := None; now := db_now c; gen_random_uuid := new_id c |}.

(** The row [gated_request] has [logRateLimitRequest] insert. *)
Definition logged_row (config : RateLimitConfig) : InsertPayload :=
  {| ins_user_id := userId config;
     ins_operation := operation config;
     ins_success := true;
     ins_metadata := None;
     ins_ip_address := VNull |}.

(** The entries of the configured (user, operation) pair. *)
Definition of_pair (config : RateLimitConfig) (r : RateLimitLog) : bool :=
  String.eqb (rl_user_id r) (userId config)
  && String.eqb (rl_operation r) (operation config).

(** What the two queries of a check made at [t] count in the store. *)
Definition hourly_count (config : RateLimitConfig) (db : Db) (t : Timestamp)
  : Z :=
  Z.of_nat (List.length
    (filter (PostgREST.selected (userId config) (operation config)
               (t - 60 * 60 * 1000))
            (rate_limit_logs db))).

Definition daily_count (config : RateLimitConfig) (db : Db) (t : Timestamp)
  : Z :=
  Z.of_nat (List.length
    (filter (PostgREST.selected (userId config) (operation config)
               (t - 24 * 60 * 60 * 1000))
            (rate_limit_logs db))).

(** One call served from the store [db]: whether it was processed, and the
    store afterwards. *)
Definition serve_call (config : RateLimitConfig) (db : Db) (c : Call)
  : bool * Db :=
  let w :=
    {| console := [];
       requests := [];
       backend := {| PostgREST.db := db;
                     PostgREST.session := logging_session c |} |} in
  let (o, w') :=
    gated_request PostgREST.Server PostgREST.serve config (js_now c) w in
  (match o with
   | Returned processed => processed
   | Thrown _ => false
   end,
   PostgREST.db (backend w')).

(** Calls served one after the other. *)
Fixpoint serve_calls (config : RateLimitConfig) (db : Db) (calls : list Call)
  : list bool * Db :=
  match calls with
  | [] => ([], db)
  | c :: rest =>
      let (processed, db') := serve_call config db c in
      let (others, db'') := serve_calls config db' rest in
      (processed :: others, db'')
  end.

End Gate.

(** ** Sample data: one user's afternoon *)

Module Sample.
Import Schema.

(** 2026-01-22T12:00:00.000Z *)
Definition noon : Timestamp := 1769083200000.

Definition minutes (n : Z) : Z := n * 60 * 1000.

Definition user_a : uuid := "0a1b2c3d-0000-4000-8000-00000000000a".
Definition user_b : uuid := "0a1b2c3d-0000-4000-8000-00000000000b".
(** An identifier that [auth.users] does not hold. *)
Definition user_z : uuid := "0a1b2c3d-0000-4000-8000-00000000000f".

(** user-a generating notes, under the limits [DEFAULT_RATE_LIMITS] gives the
    operation: 3 per hour, 10 per day. *)
Definition notes_3_10 : RateLimit.RateLimitConfig :=
  {| RateLimit.operation := "generate-notes";
     RateLimit.userId := user_a;
     RateLimit.limitsPerHour := 3;
     RateLimit.limitsPerDay := 10 |}.

Definition entry (id user op : string) (t : Timestamp) : RateLimitLog :=
  {| rl_id := id;
     rl_user_id := user;
     rl_operation := op;
     rl_success := true;
     rl_metadata := None;
     rl_ip_address := None;
     rl_created_at := t |}.

(** Three note generations of user-a in the last half hour. *)
Definition three_in_hour : list RateLimitLog :=
  [ entry "7e000000-0000-4000-8000-000000000001" user_a "generate-notes"
      (noon - minutes 30);
    entry "7e000000-0000-4000-8000-000000000002" user_a "generate-notes"
      (noon - minutes 20);
    entry "7e000000-0000-4000-8000-000000000003" user_a "generate-notes"
      (noon - minutes 10) ].

(** One request made exactly one hour before noon. *)
Definition on_the_hour : list RateLimitLog :=
  [ entry "7e000000-0000-4000-8000-000000000000" user_a "generate-notes"
      (noon - minutes 60) ].

Definition db_of (rows : list RateLimitLog) : Db :=
  {| auth_users := [user_a; user_b];
     rate_limit_logs := rows;
     audit_logs := [] |}.

(** A statement run at noon for the caller [who]. *)
Definition at_noon (who : option uuid) : Session :=
  {| auth_uid := who;
     now := noon;
     gen_random_uuid := "7e000000-0000-4000-8000-0000000000ff" |}.

(** Four arrivals of user-a, ten minutes apart from noon on, each logged
    two seconds after it was checked. *)
Definition four_calls : list Gate.Call :=
  [ {| Gate.js_now := noon;
       Gate.db_now := noon + 2000;
       Gate.new_id := "7e000000-0000-4000-8000-00000000000a" |};
    {| Gate.js_now := noon + minutes 10;
       Gate.db_now := noon + minutes 10 + 2000;
       Gate.new_id := "7e000000-0000-4000-8000-00000000000b" |};
    {| Gate.js_now := noon + minutes 20;
       Gate.db_now := noon + minutes 20 + 2000;
       Gate.new_id := "7e000000-0000-4000-8000-00000000000c" |};
    {| Gate.js_now := noon + minutes 30;
       Gate.db_now := noon + minutes 30 + 2000;
       Gate.new_id := "7e000000-0000-4000-8000-00000000000d" |} ].

(** The store as it is at noon, reached through PostgREST. *)
Definition store_at_noon (rows : list RateLimitLog)
  : RateLimit.World PostgREST.Server :=
  {| RateLimit.console := [];
     RateLimit.requests := [];
     RateLimit.backend := {| PostgREST.db := db_of rows;
                             PostgREST.session := at_noon None |} |}.

End Sample.

(** ** Scripted clients

    A client whose answers are fixed in advance, one per awaited request: the
    way a test double of the Supabase client is driven. *)

Module Scripted.
Import RateLimit.

Definition Script := list (Outcome JsError Response).

Definition exhausted : JsError :=
  {| js_name := "Error"; js_message := "no scripted answer left" |}.

Definition serve (script : Script) (req : Request)
  : Outcome JsError Response * Script :=
  match script with
  | [] => (Thrown exhausted, [])
  | answer :: rest => (answer, rest)
  end.

Definition start (script : Script) : World Script :=
  {| console := []; requests := []; backend := script |}.

Definition ok (n : Z) : Outcome JsError Response :=
  Returned {| count := Some n; error := None |}.

Definition null_count : Outcome JsError Response :=
  Returned {| count := None; error := None |}.

Definition storage_error : PostgrestError :=
  {| pg_code := "57P03";
     pg_message := "the database system is not accepting connections" |}.

(** An error response that still carries a count. *)
Definition failed (n : option Z) : Outcome JsError Response :=
  Returned {| count := n; error := Some storage_error |}.

Definition network_down : JsError :=
  {| js_name := "TypeError"; js_message := "fetch failed" |}.

End Scripted.

(** ** The specification's reading of a window

    The Window Counter of the specification counts the request-log entries
    of one (user, operation) pair created after the cutoff.  This is that
    reading, written down once to compare both counters of the code with. *)

Module Spec.
Import Schema.

Definition counted (user op : string) (cutoff : Timestamp) (r : RateLimitLog)
  : bool :=
  String.eqb (rl_user_id r) user
  && String.eqb (rl_operation r) op
  && (cutoff <? rl_created_at r).

Definition entries_after (user op : string) (cutoff : Timestamp)
    (rows : list RateLimitLog) : list RateLimitLog :=
  filter (counted user op cutoff) rows.

Definition count_after (user op : string) (cutoff : Timestamp)
    (rows : list RateLimitLog) : Z :=
  Z.of_nat (List.length (entries_after user op cutoff rows)).

(** [r] is an oldest entry of the window. *)
Definition oldest_after (user op : string) (cutoff : Timestamp)
    (rows : list RateLimitLog) (r : RateLimitLog) : Prop :=
  In r (entries_after user op cutoff rows)
  /\ forall r', In r' (entries_after user op cutoff rows) ->
                rl_created_at r <= rl_created_at r'.

End Spec.

(** ** The constraints of the two tables, as a property of a database *)

Module Constraints.
Import Schema.

(** PRIMARY KEY (id) on both tables and REFERENCES auth.users(id) on both
    user_id columns. *)
Definition well_formed (db : Db) : Prop :=
  NoDup (map rl_id (rate_limit_logs db))
  /\ NoDup (map al_id (audit_logs db))
  /\ (forall r, In r (rate_limit_logs db) -> In (rl_user_id r) (auth_users db))
  /\ (forall a, In a (audit_logs db) -> In (al_user_id a) (auth_users db)).

(** [SELECT * FROM audit_logs WHERE id = ...] *)
Definition find_audit_log (db : Db) (id : uuid) : option AuditLog :=
  find (fun a => String.eqb (al_id a) id) (audit_logs db).

(** A database with one more row in [rate_limit_logs]. *)
Definition with_rate_limit_log (db : Db) (r : RateLimitLog) : Db :=
  {| auth_users := auth_users db;
     rate_limit_logs := rate_limit_logs db ++ [r];
     audit_logs := audit_logs db |}.

End Constraints.

(** ** Further sample data *)

Module Fixtures.
Import Sample.

(** user-a's status at noon, with three entries in the last half hour. *)
Definition status_at_noon : Pg.RateLimitStatus :=
  {| Pg.requests_this_hour := 3;
     Pg.requests_this_day := 3;
     Pg.hour_resets_at := Some (noon + minutes 30);
     Pg.day_resets_at := Some (noon - minutes 30 + 24 * 60 * 60 * 1000) |}.

(** A call checked at noon and logged two seconds later. *)
Definition call_at_noon : Gate.Call :=
  {| Gate.js_now := noon;
     Gate.db_now := noon + 2000;
     Gate.new_id := "7e000000-0000-4000-8000-00000000000a" |}.

(** Note generation closed by an hourly limit of zero. *)
Definition notes_closed : RateLimit.RateLimitConfig :=
  {| RateLimit.operation := "generate-notes";
     RateLimit.userId := user_a;
     RateLimit.limitsPerHour := 0;
     RateLimit.limitsPerDay := 10 |}.

End Fixtures.

(** * Properties *)

(** ** Strings *)

Lemma Contains_middle (pre s post : string) :
  Contains s (pre ++ s ++ post).
Proof. exists pre, post. reflexivity. Qed.

Lemma string_app_assoc (a b c : string) :
  ((a ++ b) ++ c = a ++ (b ++ c))%string.
Proof.
  induction a as [| ch a IH]; simpl.
  - reflexivity.
  - now rewrite IH.
Qed.

(** ** checkRateLimit, path by path *)

(** Reduce the monad's plumbing around a step whose answer is known. *)
Ltac run_step :=
  cbv beta iota zeta;
  cbn [RateLimit.backend RateLimit.console RateLimit.requests
       RateLimit.ret RateLimit.bind RateLimit.console_error fst snd].

Section CheckRateLimit.
Import RateLimit.

Variable Backend : Type.
Variable serve : Backend -> Request -> Outcome JsError Response * Backend.

Abbreviation World := (World Backend).
Abbreviation checkRateLimit := (checkRateLimit Backend serve).

Variable config : RateLimitConfig.
Variable now : Timestamp.

Abbreviation hourly_query := (count_query config (now - 60 * 60 * 1000)).
Abbreviation daily_query := (count_query config (now - 24 * 60 * 60 * 1000)).

(** The hourly query reports an error. *)
Lemma run_hourly_error (w : World) r1 b1 e :
  serve (backend w) hourly_query = (Returned r1, b1) ->
  error r1 = Some e ->
  checkRateLimit config now w =
  (Returned {| allowed := true;
               remaining := limitsPerHour config;
               resetAtHour := now + 60 * 60 * 1000;
               resetAtDay := now + 24 * 60 * 60 * 1000;
               message := Some "Rate limit check failed (allowing request)" |},
   {| console := console w ++
                 [("Error checking hourly rate limit:", OfPostgrest e)];
      requests := requests w ++ [hourly_query];
      backend := b1 |}).
Proof.
  intros Hq He.
  unfold RateLimit.checkRateLimit, try_catch, bind, await.
  rewrite Hq. run_step. rewrite He. reflexivity.
Qed.

(** The hourly query is rejected. *)
Lemma run_hourly_thrown (w : World) err b1 :
  serve (backend w) hourly_query = (Thrown err, b1) ->
  checkRateLimit config now w =
  (Returned {| allowed := true;
               remaining := limitsPerHour config;
               resetAtHour := now + 60 * 60 * 1000;
               resetAtDay := now + 24 * 60 * 60 * 1000;
               message := None |},
   {| console := console w ++
                 [("Unexpected error in rate limit check:", OfJs err)];
      requests := requests w ++ [hourly_query];
      backend := b1 |}).
Proof.
  intros Hq.
  unfold RateLimit.checkRateLimit, try_catch, bind, await.
  rewrite Hq. reflexivity.
Qed.

(** The hourly query succeeds, the daily query reports an error. *)
Lemma run_daily_error (w : World) r1 b1 r2 b2 e :
  serve (backend w) hourly_query = (Returned r1, b1) ->
  error r1 = None ->
  serve b1 daily_query = (Returned r2, b2) ->
  error r2 = Some e ->
  checkRateLimit config now w =
  (Returned {| allowed := true;
               remaining := limitsPerDay config;
               resetAtHour := now + 60 * 60 * 1000;
               resetAtDay := now + 24 * 60 * 60 * 1000;
               message := Some "Rate limit check failed (allowing request)" |},
   {| console := console w ++
                 [("Error checking daily rate limit:", OfPostgrest e)];
      requests := requests w ++ [hourly_query] ++ [daily_query];
      backend := b2 |}).
Proof.
  intros Hq1 He1 Hq2 He2.
  unfold RateLimit.checkRateLimit, try_catch, bind, await.
  rewrite Hq1. run_step. rewrite He1. run_step.
  rewrite Hq2. run_step. rewrite He2. run_step.
  now rewrite <- app_assoc.
Qed.

(** The hourly query succeeds, the daily query is rejected. *)
Lemma run_daily_thrown (w : World) r1 b1 err b2 :
  serve (backend w) hourly_query = (Returned r1, b1) ->
  error r1 = None ->
  serve b1 daily_query = (Thrown err, b2) ->
  checkRateLimit config now w =
  (Returned {| allowed := true;
               remaining := limitsPerHour config;
               resetAtHour := now + 60 * 60 * 1000;
               resetAtDay := now + 24 * 60 * 60 * 1000;
               message := None |},
   {| console := console w ++
                 [("Unexpected error in rate limit check:", OfJs err)];
      requests := requests w ++ [hourly_query] ++ [daily_query];
      backend := b2 |}).
Proof.
  intros Hq1 He1 Hq2.
  unfold RateLimit.checkRateLimit, try_catch, bind, await.
  rewrite Hq1. run_step. rewrite He1. run_step. rewrite Hq2. run_step.
  now rewrite <- app_assoc.
Qed.

(** Both queries succeed: the decision is taken on the two counts. *)
Lemma run_evaluated (w : World) r1 b1 r2 b2 :
  serve (backend w) hourly_query = (Returned r1, b1) ->
  error r1 = None ->
  serve b1 daily_query = (Returned r2, b2) ->
  error r2 = None ->
  checkRateLimit config now w =
  (Returned
     (if limitsPerHour config <=? or_zero (count r1) then
        {| allowed := false;
           remaining := 0;
           resetAtHour := now + 60 * 60 * 1000;
           resetAtDay := now + 24 * 60 * 60 * 1000;
           message := Some (hourly_message config) |}
      else if limitsPerDay config <=? or_zero (count r2) then
        {| allowed := false;
           remaining := 0;
           resetAtHour := now + 60 * 60 * 1000;
           resetAtDay := now + 24 * 60 * 60 * 1000;
           message := Some (daily_message config) |}
      else
        {| allowed := true;
           remaining := limitsPerHour config - or_zero (count r1) - 1;
           resetAtHour := now + 60 * 60 * 1000;
           resetAtDay := now + 24 * 60 * 60 * 1000;
           message := None |}),
   {| console := console w;
      requests := requests w ++ [hourly_query] ++ [daily_query];
      backend := b2 |}).
Proof.
  intros Hq1 He1 Hq2 He2.
  unfold RateLimit.checkRateLimit, try_catch, bind, await.
  rewrite Hq1. run_step. rewrite He1. run_step.
  rewrite Hq2. run_step. rewrite He2. run_step.
  rewrite <- app_assoc.
  destruct (limitsPerHour config <=? or_zero (count r1));
    [| destruct (limitsPerDay config <=? or_zero (count r2))]; reflexivity.
Qed.

End CheckRateLimit.

(** ** The Rate Limit Evaluator *)

Section Evaluator.
Import RateLimit.

Variable Backend : Type.
Variable serve : Backend -> Request -> Outcome JsError Response * Backend.

Abbreviation check := (RateLimit.checkRateLimit Backend serve).

Lemma hourly_message_cites (config : RateLimitConfig) :
  Contains (operation config) (hourly_message config)
  /\ Contains (number_to_string (limitsPerHour config)) (hourly_message config)
  /\ Contains "per hour" (hourly_message config).
Proof.
  unfold hourly_message. repeat split.
  - apply Contains_middle.
  - exists ("Rate limit exceeded for " ++ operation config ++ ". Max ")%string,
      " requests per hour. Try again in an hour.".
    now rewrite !string_app_assoc.
  - exists ("Rate limit exceeded for " ++ operation config ++ ". Max "
            ++ number_to_string (limitsPerHour config) ++ " requests ")%string,
      ". Try again in an hour.".
    now rewrite !string_app_assoc.
Qed.

(** C1. When the query of a window reports a storage error, checkRateLimit
    allows the request whatever count the response carries: remaining is
    limitsPerHour when the hourly query failed and limitsPerDay when the daily
    query failed, resetAtHour is now + 1h, resetAtDay is now + 24h, and the
    message says that the check failed and the request is allowed. *)
Theorem fail_open_on_storage_error
    (config : RateLimitConfig) (now : Timestamp) (w : World Backend) r1 b1 :
  serve (backend w) (count_query config (now - 60 * 60 * 1000))
    = (Returned r1, b1) ->
  (forall e, error r1 = Some e ->
     fst (check config now w) =
     Returned {| allowed := true;
                 remaining := limitsPerHour config;
                 resetAtHour := now + 60 * 60 * 1000;
                 resetAtDay := now + 24 * 60 * 60 * 1000;
                 message := Some "Rate limit check failed (allowing request)" |})
  /\
  (error r1 = None ->
   forall r2 b2 e,
     serve b1 (count_query config (now - 24 * 60 * 60 * 1000))
       = (Returned r2, b2) ->
     error r2 = Some e ->
     fst (check config now w) =
     Returned {| allowed := true;
                 remaining := limitsPerDay config;
                 resetAtHour := now + 60 * 60 * 1000;
                 resetAtDay := now + 24 * 60 * 60 * 1000;
                 message := Some "Rate limit check failed (allowing request)" |}).
Proof.
  intros Hq1. split.
  - intros e He. now rewrite (run_hourly_error _ serve config now w r1 b1 e).
  - intros He1 r2 b2 e Hq2 He2.
    now rewrite (run_daily_error _ serve config now w r1 b1 r2 b2 e).
Qed.

(** C2, as the code has it. When both counts are read without error and the
    hourly count equals or exceeds limitsPerHour = N, checkRateLimit denies:
    allowed = false, remaining = 0, resetAtHour = now + 1h, resetAtDay =
    now + 24h, and a message that cites the operation name and the hourly
    limit N.  The call that finds N - 1 requests in the hour (the N-th) is
    allowed provided the daily count is below limitsPerDay; the call that
    finds N (the N+1-th) is denied. *)
Theorem hourly_limit_is_inclusive
    (config : RateLimitConfig) (now : Timestamp) (w : World Backend)
    r1 b1 r2 b2 :
  serve (backend w) (count_query config (now - 60 * 60 * 1000))
    = (Returned r1, b1) ->
  error r1 = None ->
  serve b1 (count_query config (now - 24 * 60 * 60 * 1000))
    = (Returned r2, b2) ->
  error r2 = None ->
  (limitsPerHour config <= or_zero (count r1) ->
   exists msg,
     fst (check config now w) =
     Returned {| allowed := false;
                 remaining := 0;
                 resetAtHour := now + 60 * 60 * 1000;
                 resetAtDay := now + 24 * 60 * 60 * 1000;
                 message := Some msg |}
     /\ Contains (operation config) msg
     /\ Contains (number_to_string (limitsPerHour config)) msg
     /\ Contains "per hour" msg)
  /\
  (or_zero (count r1) = limitsPerHour config - 1 ->
   or_zero (count r2) < limitsPerDay config ->
   exists res, fst (check config now w) = Returned res /\ allowed res = true)
  /\
  (or_zero (count r1) = limitsPerHour config ->
   exists res, fst (check config now w) = Returned res /\ allowed res = false).
Proof.
  intros Hq1 He1 Hq2 He2.
  rewrite (run_evaluated _ serve config now w r1 b1 r2 b2 Hq1 He1 Hq2 He2).
  cbn [fst]. repeat split.
  - intros Hge. apply Z.leb_le in Hge. rewrite Hge.
    exists (hourly_message config). split; [reflexivity |].
    apply hourly_message_cites.
  - intros Hh Hd.
    assert (Hlt : (limitsPerHour config <=? or_zero (count r1)) = false)
      by (apply Z.leb_gt; lia).
    assert (Hld : (limitsPerDay config <=? or_zero (count r2)) = false)
      by (apply Z.leb_gt; lia).
    rewrite Hlt, Hld. eexists. split; reflexivity.
  - intros Hh.
    assert (Hge : (limitsPerHour config <=? or_zero (count r1)) = true)
      by (apply Z.leb_le; lia).
    rewrite Hge. eexists. split; reflexivity.
Qed.

(** C3, as the code has it. The hourly limit is compared before the daily
    one: when both counts are read and the hourly count is at or over
    limitsPerHour the denial is the hourly one whatever the daily count.
    The queries are not short-circuited by the count: the daily window is
    queried whenever the hourly query reports no error, and is left out only
    when the hourly query reports an error. *)
Theorem daily_window_queried_after_hourly_success
    (config : RateLimitConfig) (now : Timestamp) (w : World Backend) r1 b1 :
  serve (backend w) (count_query config (now - 60 * 60 * 1000))
    = (Returned r1, b1) ->
  (error r1 = None ->
   requests (snd (check config now w)) =
   (requests w ++ [count_query config (now - 60 * 60 * 1000);
                     count_query config (now - 24 * 60 * 60 * 1000)])%list)
  /\
  (error r1 <> None ->
   requests (snd (check config now w)) =
   (requests w ++ [count_query config (now - 60 * 60 * 1000)])%list)
  /\
  (error r1 = None ->
   forall r2 b2,
     serve b1 (count_query config (now - 24 * 60 * 60 * 1000))
       = (Returned r2, b2) ->
     error r2 = None ->
     limitsPerHour config <= or_zero (count r1) ->
     fst (check config now w) =
     Returned {| allowed := false;
                 remaining := 0;
                 resetAtHour := now + 60 * 60 * 1000;
                 resetAtDay := now + 24 * 60 * 60 * 1000;
                 message := Some (hourly_message config) |}).
Proof.
  intros Hq1. repeat split.
  - intros He1.
    destruct (serve b1 (count_query config (now - 24 * 60 * 60 * 1000)))
      as [[r2 | err] b2] eqn:Hq2.
    + destruct (error r2) as [e |] eqn:He2.
      * now rewrite (run_daily_error _ serve config now w r1 b1 r2 b2 e).
      * now rewrite (run_evaluated _ serve config now w r1 b1 r2 b2).
    + now rewrite (run_daily_thrown _ serve config now w r1 b1 err b2).
  - intros He1. destruct (error r1) as [e |] eqn:He; [| congruence].
    now rewrite (run_hourly_error _ serve config now w r1 b1 e).
  - intros He1 r2 b2 Hq2 He2 Hge.
    rewrite (run_evaluated _ serve config now w r1 b1 r2 b2 Hq1 He1 Hq2 He2).
    apply Z.leb_le in Hge. now rewrite Hge.
Qed.

(** C5. On a call evaluated without a storage fault (both counts read, no
    error), a denial has remaining = 0 and an allowance has remaining =
    limitsPerHour - (the hourly count before the call) - 1, which is never
    negative. *)
Theorem remaining_on_evaluated_call
    (config : RateLimitConfig) (now : Timestamp) (w : World Backend)
    r1 b1 r2 b2 :
  serve (backend w) (count_query config (now - 60 * 60 * 1000))
    = (Returned r1, b1) ->
  error r1 = None ->
  serve b1 (count_query config (now - 24 * 60 * 60 * 1000))
    = (Returned r2, b2) ->
  error r2 = None ->
  exists res,
    fst (check config now w) = Returned res
    /\ (allowed res = false -> remaining res = 0)
    /\ (allowed res = true ->
        remaining res = limitsPerHour config - or_zero (count r1) - 1
        /\ 0 <= remaining res).
Proof.
  intros Hq1 He1 Hq2 He2.
  rewrite (run_evaluated _ serve config now w r1 b1 r2 b2 Hq1 He1 Hq2 He2).
  cbn [fst].
  destruct (limitsPerHour config <=? or_zero (count r1)) eqn:Hh;
    [| destruct (limitsPerDay config <=? or_zero (count r2)) eqn:Hd];
    eexists; (split; [reflexivity |]); cbn; split; try discriminate;
    try reflexivity.
  intros _. apply Z.leb_gt in Hh. split; [reflexivity | lia].
Qed.

(** C10. A response with no error and a null count is read as a count of 0:
    with limitsPerHour >= 1 and limitsPerDay >= 1, null counts on both
    queries give allowed = true and remaining = limitsPerHour - 1. *)
Theorem null_count_is_zero
    (config : RateLimitConfig) (now : Timestamp) (w : World Backend) b1 b2 :
  1 <= limitsPerHour config ->
  1 <= limitsPerDay config ->
  serve (backend w) (count_query config (now - 60 * 60 * 1000))
    = (Returned {| count := None; error := None |}, b1) ->
  serve b1 (count_query config (now - 24 * 60 * 60 * 1000))
    = (Returned {| count := None; error := None |}, b2) ->
  exists res,
    fst (check config now w) = Returned res
    /\ allowed res = true
    /\ remaining res = limitsPerHour config - 1.
Proof.
  intros Hh Hd Hq1 Hq2.
  rewrite (run_evaluated _ serve config now w _ b1 _ b2
             Hq1 eq_refl Hq2 eq_refl).
  cbn [fst count or_zero].
  assert (H1 : (limitsPerHour config <=? 0) = false) by (apply Z.leb_gt; lia).
  assert (H2 : (limitsPerDay config <=? 0) = false) by (apply Z.leb_gt; lia).
  rewrite H1, H2. eexists. repeat split. cbn. lia.
Qed.

End Evaluator.

(** ** The evaluator on concrete clients *)

Module EvaluatorRuns.
Import RateLimit Scripted Sample.

Abbreviation run script :=
  (checkRateLimit Script Scripted.serve notes_3_10 noon (start script)).

(** The hourly query fails with 99 rows on record; the daily query fails
    after an hourly count of 99. *)
Lemma fail_open_on_storage_error_witness :
  fst (run [failed (Some 99)]) =
    Returned {| allowed := true; remaining := 3;
                resetAtHour := noon + 60 * 60 * 1000;
                resetAtDay := noon + 24 * 60 * 60 * 1000;
                message := Some "Rate limit check failed (allowing request)" |}
  /\
  fst (run [ok 99; failed (Some 500)]) =
    Returned {| allowed := true; remaining := 10;
                resetAtHour := noon + 60 * 60 * 1000;
                resetAtDay := noon + 24 * 60 * 60 * 1000;
                message := Some "Rate limit check failed (allowing request)" |}.
Proof.
  split.
  - exact (proj1 (fail_open_on_storage_error Script Scripted.serve notes_3_10
                    noon (start [failed (Some 99)]) _ _ eq_refl)
                 storage_error eq_refl).
  - exact (proj2 (fail_open_on_storage_error Script Scripted.serve notes_3_10
                    noon (start [ok 99; failed (Some 500)]) _ _ eq_refl)
                 eq_refl _ _ storage_error eq_refl eq_refl).
Defined.

(** C2 as stated fails: with three requests already counted in the hour
    (N = 3) and the daily query reporting an error, the call is allowed; and
    with two counted in the hour and ten in the day, the third call of the
    hour is denied, on the daily limit. *)
Lemma hourly_threshold_overridden :
  Scripted.serve (backend (start [ok 3; failed None]))
    (count_query notes_3_10 (noon - 60 * 60 * 1000))
    = (Returned {| count := Some 3; error := None |}, [failed None])
  /\ limitsPerHour notes_3_10 <= 3
  /\ fst (run [ok 3; failed None]) =
       Returned {| allowed := true; remaining := 10;
                   resetAtHour := noon + 60 * 60 * 1000;
                   resetAtDay := noon + 24 * 60 * 60 * 1000;
                   message := Some "Rate limit check failed (allowing request)" |}
  /\ ~ (exists res,
          fst (run [ok 3; failed None]) = Returned res /\ allowed res = false)
  /\ 2 = limitsPerHour notes_3_10 - 1
  /\ fst (run [ok 2; ok 10]) =
       Returned {| allowed := false; remaining := 0;
                   resetAtHour := noon + 60 * 60 * 1000;
                   resetAtDay := noon + 24 * 60 * 60 * 1000;
                   message := Some "Daily limit exceeded for generate-notes. Max 10 requests per day. Try again tomorrow." |}.
Proof.
  split; [reflexivity |]. split; [cbn; lia |]. split; [reflexivity |].
  split; [| split; reflexivity].
  intros [res [Hrun Hdenied]]. cbn in Hrun. inversion Hrun; subst res.
  discriminate Hdenied.
Qed.

(** Two requests counted in the hour, four in the day: the third call is
    allowed; three counted: the fourth is denied, citing "3" and the
    operation. *)
Lemma hourly_limit_is_inclusive_witness :
  (exists res, fst (run [ok 2; ok 4]) = Returned res /\ allowed res = true)
  /\
  (exists msg,
     fst (run [ok 3; ok 4]) =
       Returned {| allowed := false; remaining := 0;
                   resetAtHour := noon + 60 * 60 * 1000;
                   resetAtDay := noon + 24 * 60 * 60 * 1000;
                   message := Some msg |}
     /\ Contains "generate-notes" msg
     /\ Contains "3" msg
     /\ Contains "per hour" msg).
Proof.
  split.
  - refine (proj1 (proj2 (hourly_limit_is_inclusive Script Scripted.serve
                            notes_3_10 noon (start [ok 2; ok 4]) _ _ _ _
                            eq_refl eq_refl eq_refl eq_refl)) _ _).
    + reflexivity.
    + cbn. lia.
  - refine (proj1 (hourly_limit_is_inclusive Script Scripted.serve
                     notes_3_10 noon (start [ok 3; ok 4]) _ _ _ _
                     eq_refl eq_refl eq_refl eq_refl) _).
    cbn. lia.
Defined.

(** C3 as stated fails: with three requests of the user in the last hour
    and a limit of three, the hourly count read is 3, the call is denied on
    the hourly limit, and the daily window has been queried all the same. *)
Lemma daily_window_queried_on_hourly_denial :
  let w := store_at_noon three_in_hour in
  let result :=
    checkRateLimit PostgREST.Server PostgREST.serve notes_3_10 noon w in
  fst (PostgREST.serve (backend w)
         (count_query notes_3_10 (noon - 60 * 60 * 1000)))
    = Returned {| count := Some 3; error := None |}
  /\ limitsPerHour notes_3_10 <= 3
  /\ (exists res, fst result = Returned res /\ allowed res = false)
  /\ In (count_query notes_3_10 (noon - 24 * 60 * 60 * 1000))
        (requests (snd result)).
Proof.
  cbv zeta. split; [reflexivity |]. split; [cbn; lia |]. split.
  - eexists. split; reflexivity.
  - vm_compute. right. left. reflexivity.
Qed.

(** On the same store: both windows are queried, and the denial is the
    hourly one. *)
Lemma daily_window_queried_after_hourly_success_witness :
  let w := store_at_noon three_in_hour in
  let result :=
    checkRateLimit PostgREST.Server PostgREST.serve notes_3_10 noon w in
  requests (snd result) =
    [count_query notes_3_10 (noon - 60 * 60 * 1000);
     count_query notes_3_10 (noon - 24 * 60 * 60 * 1000)]
  /\ fst result =
     Returned {| allowed := false; remaining := 0;
                 resetAtHour := noon + 60 * 60 * 1000;
                 resetAtDay := noon + 24 * 60 * 60 * 1000;
                 message := Some (hourly_message notes_3_10) |}
  /\ requests (snd (run [failed (Some 3)])) =
     [count_query notes_3_10 (noon - 60 * 60 * 1000)].
Proof.
  cbv zeta. split; [| split].
  - exact (proj1 (daily_window_queried_after_hourly_success
                    PostgREST.Server PostgREST.serve notes_3_10 noon
                    (store_at_noon three_in_hour) _ _ eq_refl) eq_refl).
  - refine (proj2 (proj2 (daily_window_queried_after_hourly_success
                     PostgREST.Server PostgREST.serve notes_3_10 noon
                     (store_at_noon three_in_hour) _ _ eq_refl))
                  eq_refl _ _ eq_refl eq_refl _).
    cbn. lia.
  - refine (proj1 (proj2 (daily_window_queried_after_hourly_success
                     Script Scripted.serve notes_3_10 noon
                     (start [failed (Some 3)]) _ _ eq_refl)) _).
    cbn. discriminate.
Defined.

(** One request counted in the hour: allowed with 3 - 1 - 1 = 1 left. *)
Lemma remaining_on_evaluated_call_witness :
  exists res,
    fst (run [ok 1; ok 7]) = Returned res
    /\ (allowed res = false -> remaining res = 0)
    /\ (allowed res = true ->
        remaining res = limitsPerHour notes_3_10 - 1 - 1
        /\ 0 <= remaining res).
Proof.
  exact (remaining_on_evaluated_call Script Scripted.serve notes_3_10 noon
           (start [ok 1; ok 7]) _ _ _ _ eq_refl eq_refl eq_refl eq_refl).
Defined.

(** Null counts on both queries under the limits 3 and 10. *)
Lemma null_count_is_zero_witness :
  exists res,
    fst (run [null_count; null_count]) = Returned res
    /\ allowed res = true
    /\ remaining res = limitsPerHour notes_3_10 - 1.
Proof.
  refine (null_count_is_zero Script Scripted.serve notes_3_10 noon
            (start [null_count; null_count]) _ _ _ _ eq_refl eq_refl);
    cbn; lia.
Defined.

(** C8 on the code: the hourly query is rejected ("fetch failed").  The
    [catch] allows the request with remaining = limitsPerHour and the two
    reset times, but its result carries no message, where the result on a
    reported storage error carries one. *)
Theorem exception_result_has_no_message :
  fst (run [Thrown network_down]) =
    Returned {| allowed := true; remaining := 3;
                resetAtHour := noon + 60 * 60 * 1000;
                resetAtDay := noon + 24 * 60 * 60 * 1000;
                message := None |}
  /\ fst (run [failed None]) =
    Returned {| allowed := true; remaining := 3;
                resetAtHour := noon + 60 * 60 * 1000;
                resetAtDay := noon + 24 * 60 * 60 * 1000;
                message := Some "Rate limit check failed (allowing request)" |}
  /\ fst (run [Thrown network_down]) <> fst (run [failed None]).
Proof.
  split; [reflexivity |]. split; [reflexivity |].
  cbn. intros H. inversion H.
Qed.

End EvaluatorRuns.

(** ** The Status Query Service: get_rate_limit_status *)

Module StatusFacts.
Import Schema Pg.

(** With both arguments present the three-valued WHERE clause is the
    specification's window. *)
Lemma in_window_counted (u op : string) (cutoff : Timestamp)
    (r : RateLimitLog) :
  in_window (Some u) (Some op) cutoff r = Spec.counted u op cutoff r.
Proof.
  unfold in_window, Spec.counted, eq3_text, gt3_time, and3, is_true.
  destruct (String.eqb (rl_user_id r) u), (String.eqb (rl_operation r) op),
    (cutoff <? rl_created_at r); reflexivity.
Qed.

Lemma filter_in_window (u op : string) (cutoff : Timestamp) rows :
  filter (in_window (Some u) (Some op) cutoff) rows
  = Spec.entries_after u op cutoff rows.
Proof.
  unfold Spec.entries_after. apply filter_ext. intros r.
  apply in_window_counted.
Qed.

(** A NULL argument selects nothing. *)
Lemma in_window_null_user (op : option string) cutoff r :
  in_window None op cutoff r = false.
Proof.
  unfold in_window, eq3_text, gt3_time, and3, is_true.
  destruct op; try destruct (String.eqb _ _);
    destruct (cutoff <? rl_created_at r); reflexivity.
Qed.

Lemma MIN_created_at_none rows :
  MIN_created_at rows = None <-> rows = [].
Proof.
  destruct rows as [| r rest]; cbn.
  - tauto.
  - destruct (MIN_created_at rest); split; discriminate.
Qed.

(** [MIN(created_at)] is the timestamp of a row, and no row is older. *)
Lemma MIN_created_at_some rows t :
  MIN_created_at rows = Some t ->
  (exists r, In r rows /\ rl_created_at r = t)
  /\ (forall r, In r rows -> t <= rl_created_at r).
Proof.
  revert t. induction rows as [| r rest IH]; intros t Hmin; cbn in Hmin.
  - discriminate.
  - destruct (MIN_created_at rest) as [m |] eqn:Hrest.
    + destruct (IH m eq_refl) as [[r0 [Hin Hr0]] Hlow].
      injection Hmin as <-. split.
      * destruct (Z.min_spec (rl_created_at r) m) as [[_ ->] | [_ ->]].
        -- exists r. split; [now left | reflexivity].
        -- exists r0. split; [now right | assumption].
      * intros r' [<- | Hin'].
        -- apply Z.le_min_l.
        -- etransitivity; [apply Z.le_min_r | now apply Hlow].
    + apply MIN_created_at_none in Hrest. subst rest.
      injection Hmin as <-. split.
      * exists r. split; [now left | reflexivity].
      * intros r' [<- | []]. reflexivity.
Qed.

Lemma COUNT_zero rows : COUNT rows = 0 <-> rows = [].
Proof.
  unfold COUNT. destruct rows; cbn; split; try reflexivity;
    try discriminate; lia.
Qed.

(** The CASE expression of one window: NULL exactly when nothing is counted,
    else the oldest counted entry's timestamp plus the window's length. *)
Lemma reset_of_window (u op : string) (cutoff dur : Z) rows :
  let counted_rows := filter (in_window (Some u) (Some op) cutoff) rows in
  let reset :=
    if 0 <? COUNT counted_rows
    then option_map (fun t => t + dur) (MIN_created_at counted_rows)
    else None in
  (Spec.count_after u op cutoff rows = 0 -> reset = None)
  /\ (0 < Spec.count_after u op cutoff rows ->
      exists r, Spec.oldest_after u op cutoff rows r
                /\ reset = Some (rl_created_at r + dur)).
Proof.
  cbv zeta. unfold Spec.count_after, Spec.oldest_after.
  rewrite filter_in_window.
  set (es := Spec.entries_after u op cutoff rows).
  fold (COUNT es). split.
  - intros ->. reflexivity.
  - intros Hpos. apply Z.ltb_lt in Hpos as Hb. rewrite Hb.
    destruct (MIN_created_at es) as [t |] eqn:Hmin.
    + destruct (MIN_created_at_some es t Hmin) as [[r [Hin Ht]] Hlow].
      exists r. subst t. repeat split; auto.
    + apply MIN_created_at_none in Hmin. rewrite Hmin in Hpos.
      cbn in Hpos. lia.
Qed.

(** A caller with an identity other than the requested user is refused
    before any table is read. *)
Lemma mismatch_raises_before_reading (s : Session) db caller u op :
  auth_uid s = Some caller ->
  caller <> u ->
  get_rate_limit_status s db (Some u) op = (Thrown unauthorized, []).
Proof.
  intros Hc Hneq. unfold get_rate_limit_status, neq3_text, eq3_text.
  rewrite Hc. cbn.
  destruct (String.eqb u caller) eqn:E; [| reflexivity].
  apply String.eqb_eq in E. congruence.
Qed.

(** The guard compares with [!=]: with no authenticated identity
    ([auth.uid()] NULL) the comparison is NULL, the IF is not taken and both
    windows are read. *)
Lemma null_caller_passes_guard (s : Session) db u op :
  auth_uid s = None ->
  exists st,
    get_rate_limit_status s db u op
    = (Returned st, [Scan "rate_limit_logs"; Scan "rate_limit_logs"]).
Proof.
  intros Hc. unfold get_rate_limit_status, neq3_text, eq3_text.
  rewrite Hc. destruct u; cbn; eexists; reflexivity.
Qed.

(** C4 on the code: a call made without an authenticated identity (the
    service-role or anon key: [auth.uid()] is NULL) for user-a's status is
    not refused; it reads the request log twice and returns user-a's counts
    and reset times. *)
Theorem null_caller_reads_other_users_status :
  get_rate_limit_status (Sample.at_noon None)
    (Sample.db_of Sample.three_in_hour)
    (Some Sample.user_a) (Some "generate-notes")
  = (Returned {| requests_this_hour := 3;
                 requests_this_day := 3;
                 hour_resets_at := Some (Sample.noon + Sample.minutes 30);
                 day_resets_at :=
                   Some (Sample.noon - Sample.minutes 30
                         + 24 * 60 * 60 * 1000) |},
     [Scan "rate_limit_logs"; Scan "rate_limit_logs"]).
Proof. reflexivity. Qed.

(** C6. For the caller's own status, get_rate_limit_status returns the
    numbers of request-log entries of (userId, operation) in the trailing
    hour and the trailing day; each reset time is null when its window has
    no entry and otherwise the timestamp of an oldest entry of the window
    plus the window's length (1 hour, 1 day). *)
Theorem status_counts_and_oldest_expiry
    (s : Session) (db : Db) (u op : string) :
  auth_uid s = Some u ->
  let rows := rate_limit_logs db in
  let hour_ago := now s - 60 * 60 * 1000 in
  let day_ago := now s - 24 * 60 * 60 * 1000 in
  exists st,
    fst (get_rate_limit_status s db (Some u) (Some op)) = Returned st
    /\ requests_this_hour st = Spec.count_after u op hour_ago rows
    /\ requests_this_day st = Spec.count_after u op day_ago rows
    /\ (requests_this_hour st = 0 -> hour_resets_at st = None)
    /\ (0 < requests_this_hour st ->
        exists r,
          Spec.oldest_after u op hour_ago rows r
          /\ hour_resets_at st = Some (rl_created_at r + 60 * 60 * 1000))
    /\ (requests_this_day st = 0 -> day_resets_at st = None)
    /\ (0 < requests_this_day st ->
        exists r,
          Spec.oldest_after u op day_ago rows r
          /\ day_resets_at st = Some (rl_created_at r + 24 * 60 * 60 * 1000)).
Proof.
  intros Hc. cbv zeta.
  unfold get_rate_limit_status, neq3_text, eq3_text. rewrite Hc.
  rewrite String.eqb_refl. cbn [option_map negb is_true fst].
  eexists. split; [reflexivity |].
  cbn [requests_this_hour requests_this_day hour_resets_at day_resets_at].
  change interval_1_hour with (60 * 60 * 1000).
  change interval_1_day with (24 * 60 * 60 * 1000).
  pose proof (reset_of_window u op (now s - 60 * 60 * 1000) (60 * 60 * 1000)
                (rate_limit_logs db)) as [Hh0 Hh1].
  pose proof (reset_of_window u op (now s - 24 * 60 * 60 * 1000)
                (24 * 60 * 60 * 1000) (rate_limit_logs db)) as [Hd0 Hd1].
  unfold Spec.count_after in *. rewrite <- !filter_in_window in *.
  fold (COUNT (filter (in_window (Some u) (Some op) (now s - 60 * 60 * 1000))
                 (rate_limit_logs db))) in *.
  fold (COUNT (filter (in_window (Some u) (Some op)
                         (now s - 24 * 60 * 60 * 1000))
                 (rate_limit_logs db))) in *.
  repeat split; auto.
Qed.

(** With no entry on record the status is all zeros and nulls. *)
Lemma status_of_empty_log (s : Session) (db : Db) (u op : string) :
  auth_uid s = Some u ->
  rate_limit_logs db = [] ->
  fst (get_rate_limit_status s db (Some u) (Some op))
  = Returned {| requests_this_hour := 0; requests_this_day := 0;
                hour_resets_at := None; day_resets_at := None |}.
Proof.
  intros Hc Hempty. unfold get_rate_limit_status, neq3_text, eq3_text.
  rewrite Hc, Hempty, String.eqb_refl. reflexivity.
Qed.

(** user-a asks at noon, with three entries in the last half hour: 3 and 3,
    and the oldest of them, of 11:30, sets both reset times. *)
Lemma status_counts_and_oldest_expiry_witness :
  exists st,
    fst (get_rate_limit_status (Sample.at_noon (Some Sample.user_a))
           (Sample.db_of Sample.three_in_hour)
           (Some Sample.user_a) (Some "generate-notes")) = Returned st
    /\ requests_this_hour st = 3
    /\ requests_this_day st = 3
    /\ hour_resets_at st = Some (Sample.noon + Sample.minutes 30)
    /\ day_resets_at st
       = Some (Sample.noon - Sample.minutes 30 + 24 * 60 * 60 * 1000).
Proof.
  destruct (status_counts_and_oldest_expiry
              (Sample.at_noon (Some Sample.user_a))
              (Sample.db_of Sample.three_in_hour)
              Sample.user_a "generate-notes" eq_refl)
    as [st [Hrun [Hh [Hd _]]]].
  exists st. split; [exact Hrun |]. split; [exact Hh |]. split; [exact Hd |].
  cbn in Hrun. injection Hrun as <-. split; reflexivity.
Defined.

End StatusFacts.

(** ** The Window Counter *)

Module WindowCounterFacts.
Import Schema RateLimit.

(** The answer of the store to the query of [checkRateLimit]. *)
Lemma select_count_query (db : Db) user op since :
  PostgREST.select_count db "rate_limit_logs"
    [ Eq "user_id" (VText user);
      Eq "operation" (VText op);
      Gte "created_at" (VTime since) ]
  = {| count :=
         Some (Z.of_nat (List.length
                 (filter (PostgREST.selected user op since)
                         (rate_limit_logs db))));
       error := None |}.
Proof.
  unfold PostgREST.select_count.
  change (String.eqb "rate_limit_logs" "rate_limit_logs"
          && forallb PostgREST.filter_ok
               [Eq "user_id" (VText user);
                Eq "operation" (VText op);
                Gte "created_at" (VTime since)])
    with true.
  cbv iota. do 4 f_equal.
  apply filter_ext. intros r. unfold PostgREST.selected. cbn.
  now rewrite andb_true_r, andb_assoc.
Qed.

Lemma window_count_selected (rows : list RateLimitLog) user op since :
  PostgREST.window_count rows user op since
  = Some (Z.of_nat (List.length
            (filter (PostgREST.selected user op since) rows))).
Proof.
  unfold PostgREST.window_count. now rewrite select_count_query.
Qed.

(** Isolation: an entry of another user or of another operation leaves the
    count of the pair as it was. *)
Lemma window_count_isolated (rows : list RateLimitLog) user op since r :
  rl_user_id r <> user \/ rl_operation r <> op ->
  PostgREST.window_count (rows ++ [r]) user op since
  = PostgREST.window_count rows user op since.
Proof.
  intros Hother. rewrite !window_count_selected, filter_app. cbn.
  assert (Hsel : PostgREST.selected user op since r = false).
  { unfold PostgREST.selected. destruct Hother as [H | H];
      apply String.eqb_neq in H; rewrite H; cbn;
      [reflexivity | now rewrite andb_false_r]. }
  rewrite Hsel, app_nil_r. reflexivity.
Qed.

(** An entry of the pair created before the cutoff is not counted, one
    created after it adds one. *)
Lemma window_count_by_age (rows : list RateLimitLog) user op since r :
  rl_user_id r = user -> rl_operation r = op ->
  (rl_created_at r < since ->
   PostgREST.window_count (rows ++ [r]) user op since
   = PostgREST.window_count rows user op since)
  /\ (since < rl_created_at r ->
      PostgREST.window_count (rows ++ [r]) user op since
      = option_map Z.succ (PostgREST.window_count rows user op since)).
Proof.
  intros Hu Ho. rewrite !window_count_selected, filter_app.
  assert (Hsel : PostgREST.selected user op since r
                 = (since <=? rl_created_at r)).
  { unfold PostgREST.selected. now rewrite Hu, Ho, !String.eqb_refl. }
  cbn [filter]. rewrite Hsel. split.
  - intros Hlt. apply Z.leb_gt in Hlt. rewrite Hlt, app_nil_r. reflexivity.
  - intros Hgt. assert (Hle : (since <=? rl_created_at r) = true)
      by (apply Z.leb_le; lia).
    rewrite Hle, length_app. cbn [option_map List.length]. f_equal. lia.
Qed.

(** The counter of [get_rate_limit_status] is the specification's. *)
Lemma status_count_after (rows : list RateLimitLog) user op cutoff :
  Pg.COUNT (filter (Pg.in_window (Some user) (Some op) cutoff) rows)
  = Spec.count_after user op cutoff rows.
Proof.
  unfold Spec.count_after, Pg.COUNT. now rewrite StatusFacts.filter_in_window.
Qed.

(** The two counters of the code differ by the entries created exactly at
    the cutoff. *)
Lemma selected_counted (user op : string) (since : Timestamp)
    (r : RateLimitLog) :
  PostgREST.selected user op since r
  = Spec.counted user op since r
    || (String.eqb (rl_user_id r) user && String.eqb (rl_operation r) op
        && (rl_created_at r =? since)).
Proof.
  unfold PostgREST.selected, Spec.counted.
  destruct (String.eqb (rl_user_id r) user), (String.eqb (rl_operation r) op);
    cbn; try reflexivity.
  destruct (Z.leb_spec since (rl_created_at r)),
    (Z.ltb_spec since (rl_created_at r)),
    (Z.eqb_spec (rl_created_at r) since); cbn; try reflexivity; lia.
Qed.

(** C9 on the code: the log holds one entry of (user-a, generate-notes),
    created exactly at the hourly cutoff noon - 1h.  No entry is after the
    cutoff, and the counter of get_rate_limit_status counts none; the query
    of checkRateLimit counts it, and the evaluator reports one request
    less remaining than the limit of 3 leaves after this call. *)
Theorem entry_at_cutoff_is_counted :
  map rl_created_at Sample.on_the_hour = [Sample.noon - 60 * 60 * 1000]
  /\ Spec.count_after Sample.user_a "generate-notes"
       (Sample.noon - 60 * 60 * 1000) Sample.on_the_hour = 0
  /\ Pg.COUNT (filter (Pg.in_window (Some Sample.user_a)
                         (Some "generate-notes")
                         (Sample.noon - 60 * 60 * 1000))
                 Sample.on_the_hour) = 0
  /\ PostgREST.window_count Sample.on_the_hour Sample.user_a "generate-notes"
       (Sample.noon - 60 * 60 * 1000) = Some 1
  /\ fst (checkRateLimit PostgREST.Server PostgREST.serve
            Sample.notes_3_10 Sample.noon
            (Sample.store_at_noon Sample.on_the_hour))
     = Returned {| allowed := true;
                   remaining := 1;
                   resetAtHour := Sample.noon + 60 * 60 * 1000;
                   resetAtDay := Sample.noon + 24 * 60 * 60 * 1000;
                   message := None |}.
Proof. repeat split. Qed.

End WindowCounterFacts.

(** ** Logging: logRateLimitRequest and log_audit_event *)

Module LoggingFacts.
Import RateLimit Schema.

Section RequestLog.

Variable Backend : Type.
Variable serve : Backend -> Request -> Outcome JsError Response * Backend.

(** Whatever the insert does, [logRateLimitRequest] returns. *)
Lemma logRateLimitRequest_returns user op success metadata (w : World Backend) :
  exists w',
    logRateLimitRequest Backend serve user op success metadata w
    = (Returned tt, w').
Proof.
  unfold logRateLimitRequest, try_catch, bind, await, console_error, ret.
  destruct (serve _ _) as [[r | err] b]; eexists; reflexivity.
Qed.

(** An error reported in the insert's response is dropped: nothing is
    written to the console. *)
Lemma logRateLimitRequest_ignores_response user op success metadata
    (w : World Backend) r b :
  serve (backend w)
    (Insert "rate_limit_logs"
       {| ins_user_id := user; ins_operation := op; ins_success := success;
          ins_metadata := metadata; ins_ip_address := VNull |})
    = (Returned r, b) ->
  console (snd (logRateLimitRequest Backend serve user op success metadata w))
  = console w.
Proof.
  intros Hq. unfold logRateLimitRequest, try_catch, bind, await, ret.
  now rewrite Hq.
Qed.

End RequestLog.

(** An audit event for a user that [auth.users] does not hold violates the
    foreign key; no row is written. *)
Lemma log_audit_event_unknown_user (s : Session) (db : Db)
    u action rtype rid md :
  ~ In u (auth_users db) ->
  exists exn,
    Pg.log_audit_event s db (Some u) action rtype rid md = (Thrown exn, db).
Proof.
  intros Hnot. unfold Pg.log_audit_event, Pg.insert_audit_log.
  destruct action as [a |]; [| eexists; reflexivity].
  destruct rtype as [rt |]; [| eexists; reflexivity].
  destruct (existsb _ (audit_logs db)); [eexists; reflexivity |].
  destruct (existsb (String.eqb u) (auth_users db)) eqn:Hex.
  - apply existsb_exists in Hex as [x [Hin Heq]].
    apply String.eqb_eq in Heq. subst x. contradiction.
  - eexists. reflexivity.
Qed.

(** C7 as stated fails: an audit event for a user missing from auth.users
    makes the INSERT fail, and log_audit_event raises that failure to its
    caller.  (And a request-log insert that the store refuses with an error
    response is dropped by logRateLimitRequest without a line on the
    console.) *)
Lemma audit_insert_failure_reaches_caller :
  fst (Pg.insert_audit_log (Sample.at_noon None) (Sample.db_of [])
         (Some Sample.user_z) (Some "quiz_submitted") (Some "quiz") None None)
    = Thrown (foreign_key_violation "user_id")
  /\ Pg.log_audit_event (Sample.at_noon None) (Sample.db_of [])
       (Some Sample.user_z) (Some "quiz_submitted") (Some "quiz") None None
     = (Thrown (foreign_key_violation "user_id"), Sample.db_of [])
  /\ ~ (exists id db',
          Pg.log_audit_event (Sample.at_noon None) (Sample.db_of [])
            (Some Sample.user_z) (Some "quiz_submitted") (Some "quiz") None None
          = (Returned id, db'))
  /\ fst (PostgREST.serve (backend (Sample.store_at_noon []))
            (Insert "rate_limit_logs" (Gate.logged_row
               {| operation := "generate-notes"; userId := Sample.user_z;
                  limitsPerHour := 3; limitsPerDay := 10 |})))
     = Returned {| count := None;
                   error := Some (PostgREST.constraint_error
                                    (foreign_key_violation "user_id")) |}
  /\ console (snd (logRateLimitRequest PostgREST.Server PostgREST.serve
                     Sample.user_z "generate-notes" true None
                     (Sample.store_at_noon [])))
     = [].
Proof.
  split; [reflexivity |]. split; [reflexivity |]. split.
  - intros [id [db' H]]. discriminate H.
  - split; reflexivity.
Qed.

(** C7, as the code has it. logRateLimitRequest never throws, and a
    rejection of its insert is written to the console before it is dropped.
    log_audit_event has no handler: when the INSERT fails, here for a user
    that auth.users does not hold, it raises to its caller and the audit log
    is unchanged. *)
Theorem request_log_failure_swallowed_audit_failure_raised
    (Backend : Type)
    (serve : Backend -> Request -> Outcome JsError Response * Backend)
    user op success metadata (w : World Backend) :
  (exists w',
     logRateLimitRequest Backend serve user op success metadata w
     = (Returned tt, w'))
  /\
  (forall err b,
     serve (backend w)
       (Insert "rate_limit_logs"
          {| ins_user_id := user; ins_operation := op; ins_success := success;
             ins_metadata := metadata; ins_ip_address := VNull |})
       = (Thrown err, b) ->
     console (snd (logRateLimitRequest Backend serve
                     user op success metadata w))
     = (console w ++ [("Error logging rate limit request:", OfJs err)])%list)
  /\
  (forall s db u action rtype rid md,
     ~ In u (auth_users db) ->
     exists exn,
       Pg.log_audit_event s db (Some u) action rtype rid md = (Thrown exn, db)).
Proof.
  split; [| split].
  - apply logRateLimitRequest_returns.
  - intros err b Hq.
    unfold logRateLimitRequest, try_catch, bind, await, console_error, ret.
    now rewrite Hq.
  - intros. now apply log_audit_event_unknown_user.
Qed.

(** The insert is rejected with "fetch failed"; user-z is unknown. *)
Lemma request_log_failure_swallowed_audit_failure_raised_witness :
  (exists w',
     logRateLimitRequest Scripted.Script Scripted.serve
       Sample.user_a "generate-notes" true None
       (Scripted.start [Thrown Scripted.network_down])
     = (Returned tt, w'))
  /\ console (snd (logRateLimitRequest Scripted.Script Scripted.serve
                       Sample.user_a "generate-notes" true None
                       (Scripted.start [Thrown Scripted.network_down])))
     = [("Error logging rate limit request:", OfJs Scripted.network_down)]
  /\ (exists exn,
        Pg.log_audit_event (Sample.at_noon None) (Sample.db_of [])
          (Some Sample.user_z) (Some "quiz_submitted") (Some "quiz") None None
        = (Thrown exn, Sample.db_of [])).
Proof.
  pose proof (request_log_failure_swallowed_audit_failure_raised
                Scripted.Script Scripted.serve
                Sample.user_a "generate-notes" true None
                (Scripted.start [Thrown Scripted.network_down]))
    as [Hret [Hlog Haudit]].
  split; [exact Hret | split].
  - exact (Hlog Scripted.network_down [] eq_refl).
  - apply Haudit. cbn. intros [H | [H | []]]; discriminate H.
Defined.

End LoggingFacts.

(** ** Calls in a row through the gate *)

Module GateFacts.
Import Schema RateLimit Gate.

Lemma serve_call_cases (config : RateLimitConfig) (db : Db) (c : Call) :
  serve_call config db c =
  if limitsPerHour config <=? hourly_count config db (js_now c) then
    (false, db)
  else if limitsPerDay config <=? daily_count config db (js_now c) then
    (false, db)
  else (true,
        snd (PostgREST.insert_row (logging_session c) db "rate_limit_logs"
               (logged_row config))).
Proof.
  unfold serve_call, gated_request, bind.
  erewrite run_evaluated.
  2, 4: cbn [PostgREST.serve backend count_query];
        rewrite WindowCounterFacts.select_count_query; reflexivity.
  2, 3: reflexivity.
  cbn [count or_zero PostgREST.db].
  fold (hourly_count config db (js_now c)).
  fold (daily_count config db (js_now c)).
  destruct (limitsPerHour config <=? hourly_count config db (js_now c)).
  - reflexivity.
  - destruct (limitsPerDay config <=? daily_count config db (js_now c)).
    + reflexivity.
    + cbn [allowed negb].
      unfold logRateLimitRequest, try_catch, bind, await, ret.
      cbn [backend PostgREST.serve PostgREST.db PostgREST.session].
      destruct (PostgREST.insert_row _ _ _ _) as [resp db']. reflexivity.
Qed.

Lemma filter_nothing {A} (f : A -> bool) (l : list A) :
  (forall x, In x l -> f x = false) -> filter f l = [].
Proof.
  induction l as [| x l IH]; intros Hnone; [reflexivity |].
  cbn [filter]. rewrite (Hnone x (or_introl eq_refl)).
  apply IH. intros y Hin. apply Hnone. now right.
Qed.

Section Sequence.

Variable config : RateLimitConfig.

(** When every entry of the pair is inside the hourly window of a check,
    both counts of the check are the number of entries of the pair. *)
Lemma counts_of_recent_pair (db : Db) (t : Timestamp) :
  (forall r, In r (rate_limit_logs db) -> of_pair config r = true ->
             t - 60 * 60 * 1000 <= rl_created_at r) ->
  hourly_count config db t
    = Z.of_nat (List.length (filter (of_pair config) (rate_limit_logs db)))
  /\ daily_count config db t
    = Z.of_nat (List.length (filter (of_pair config) (rate_limit_logs db))).
Proof.
  intros Hrecent. unfold hourly_count, daily_count.
  split; do 2 f_equal; apply filter_ext_in; intros r Hin;
    unfold PostgREST.selected; fold (of_pair config r);
    destruct (of_pair config r) eqn:Hp; cbn [andb]; try reflexivity;
    specialize (Hrecent r Hin Hp); apply Z.leb_le; lia.
Qed.

Lemma insert_row_appends (db : Db) (c : Call) :
  In (userId config) (auth_users db) ->
  (forall r, In r (rate_limit_logs db) -> rl_id r <> new_id c) ->
  exists row,
    rate_limit_logs
      (snd (PostgREST.insert_row (logging_session c) db "rate_limit_logs"
              (logged_row config)))
    = (rate_limit_logs db ++ [row])%list
    /\ auth_users
         (snd (PostgREST.insert_row (logging_session c) db "rate_limit_logs"
                 (logged_row config)))
       = auth_users db
    /\ rl_id row = new_id c
    /\ rl_user_id row = userId config
    /\ rl_operation row = operation config
    /\ rl_created_at row = db_now c.
Proof.
  intros Hknown Hfresh.
  unfold PostgREST.insert_row, logging_session, logged_row.
  change (String.eqb "rate_limit_logs" "rate_limit_logs") with true. cbv iota.
  cbn [gen_random_uuid now ins_user_id ins_operation ins_success ins_metadata].
  assert (Hclash : existsb (fun r => String.eqb (rl_id r) (new_id c))
                     (rate_limit_logs db) = false).
  { apply not_true_is_false. intros Hex.
    apply existsb_exists in Hex as [r [Hin Heq]].
    apply String.eqb_eq in Heq. now apply (Hfresh r Hin). }
  assert (Huser : existsb (String.eqb (userId config)) (auth_users db) = true).
  { apply existsb_exists. exists (userId config). split; [assumption |].
    apply String.eqb_refl. }
  rewrite Hclash, Huser. cbn [negb snd rate_limit_logs auth_users].
  eexists. repeat split.
Qed.

(** The calls of one rolling hour against a store that already holds [k]
    entries of the pair, all still inside the window: with as many calls as
    bring the count to N + 1, all are processed but the last. *)
Lemma serve_calls_from (calls : list Call) : forall (db : Db) (k : nat),
  In (userId config) (auth_users db) ->
  List.length (filter (of_pair config) (rate_limit_logs db)) = k ->
  (forall r, In r (rate_limit_logs db) -> of_pair config r = true ->
             forall c, In c calls ->
                       js_now c - 60 * 60 * 1000 <= rl_created_at r) ->
  (forall c r, In c calls -> In r (rate_limit_logs db) ->
               rl_id r <> new_id c) ->
  NoDup (map new_id calls) ->
  ForallOrdPairs (fun a b => js_now b - 60 * 60 * 1000 <= db_now a) calls ->
  limitsPerHour config <= limitsPerDay config ->
  Z.of_nat k <= limitsPerHour config ->
  Z.of_nat (k + List.length calls) = limitsPerHour config + 1 ->
  fst (serve_calls config db calls)
  = (repeat true (List.length calls - 1) ++ [false])%list.
Proof.
  induction calls as [| c rest IH];
    intros db k Hknown Hk Hrecent Hfresh Hids Hhour Hlimits Hroom Hlen.
  - cbn [List.length] in Hlen. lia.
  - cbn [serve_calls]. rewrite serve_call_cases.
    destruct (counts_of_recent_pair db (js_now c)) as [Hh Hd].
    { intros r Hin Hp. apply (Hrecent r Hin Hp c). now left. }
    rewrite Hh, Hd, Hk.
    destruct rest as [| c' rest'].
    + (* the last call finds N entries *)
      cbn [List.length] in Hlen.
      assert (Hfull : (limitsPerHour config <=? Z.of_nat k) = true)
        by (apply Z.leb_le; lia).
      rewrite Hfull. reflexivity.
    + (* an earlier call finds fewer than N, and is logged *)
      cbn [List.length] in Hlen.
      assert (Hh' : (limitsPerHour config <=? Z.of_nat k) = false)
        by (apply Z.leb_gt; lia).
      assert (Hd' : (limitsPerDay config <=? Z.of_nat k) = false)
        by (apply Z.leb_gt; lia).
      rewrite Hh', Hd'.
      destruct (insert_row_appends db c Hknown) as
        [row [Hrows [Husers [Hid [Hu [Ho Ht]]]]]].
      { intros r Hin. apply (Hfresh c r); [now left | assumption]. }
      set (db' := snd (PostgREST.insert_row _ db _ _)) in *.
      cbn [map] in Hids. apply NoDup_cons_iff in Hids as [Hnotin Hids'].
      inversion Hhour as [| a l Hafter Hhour']. subst a l.
      assert (Hrow : of_pair config row = true).
      { unfold of_pair. now rewrite Hu, Ho, !String.eqb_refl. }
      specialize (IH db' (S k)).
      destruct (serve_calls config db' (c' :: rest')) as [others db'']
        eqn:Hrest.
      cbn [fst] in *. rewrite IH; clear IH.
      * cbn [List.length].
        replace (S (List.length rest') - 1)%nat with (List.length rest') by lia.
        replace (S (S (List.length rest')) - 1)%nat
          with (S (List.length rest')) by lia.
        reflexivity.
      * now rewrite Husers.
      * rewrite Hrows, filter_app, length_app. cbn [filter].
        rewrite Hrow. cbn [List.length]. lia.
      * intros r Hin Hp c0 Hc0. rewrite Hrows in Hin.
        apply in_app_or in Hin as [Hin | [<- | []]].
        -- apply (Hrecent r Hin Hp c0). now right.
        -- rewrite Ht. rewrite Forall_forall in Hafter. now apply Hafter.
      * intros c0 r Hc0 Hin. rewrite Hrows in Hin.
        apply in_app_or in Hin as [Hin | [<- | []]].
        -- apply (Hfresh c0 r); [now right | assumption].
        -- rewrite Hid. intros Heq. apply Hnotin. rewrite Heq.
           change (In (new_id c0) (map new_id (c' :: rest'))).
           now apply in_map.
      * assumption.
      * assumption.
      * assumption.
      * lia.
      * cbn [List.length]. lia.
Qed.

(** X25. N + 1 calls of one user for one operation, all inside one rolling
    hour, on a store without any earlier entry of the pair: the first N are
    processed and the N+1-th is answered with 429. *)
Theorem first_N_processed_next_denied (db : Db) (calls : list Call) :
  In (userId config) (auth_users db) ->
  (forall r, In r (rate_limit_logs db) ->
             rl_user_id r <> userId config
             \/ rl_operation r <> operation config) ->
  (forall c r, In c calls -> In r (rate_limit_logs db) ->
               rl_id r <> new_id c) ->
  NoDup (map new_id calls) ->
  ForallOrdPairs (fun a b => js_now b - 60 * 60 * 1000 <= db_now a) calls ->
  0 <= limitsPerHour config <= limitsPerDay config ->
  Z.of_nat (List.length calls) = limitsPerHour config + 1 ->
  fst (serve_calls config db calls)
  = (repeat true (Z.to_nat (limitsPerHour config)) ++ [false])%list.
Proof.
  intros Hknown Hnone Hfresh Hids Hhour [Hpos Hlimits] Hlen.
  assert (Hempty : filter (of_pair config) (rate_limit_logs db) = []).
  { apply filter_nothing. intros r Hin. unfold of_pair.
    destruct (Hnone r Hin) as [H | H]; apply String.eqb_neq in H; rewrite H;
      [reflexivity | apply andb_false_r]. }
  rewrite (serve_calls_from calls db 0); try assumption.
  - do 2 f_equal. lia.
  - now rewrite Hempty.
  - intros r Hin Hp. exfalso.
    assert (Hin' : In r (filter (of_pair config) (rate_limit_logs db)))
      by (apply filter_In; now split).
    rewrite Hempty in Hin'. exact Hin'.
Qed.

End Sequence.

Lemma first_N_processed_next_denied_example :
  fst (serve_calls Sample.notes_3_10 (Sample.db_of []) Sample.four_calls)
  = [true; true; true; false].
Proof.
  refine (first_N_processed_next_denied Sample.notes_3_10 (Sample.db_of [])
            Sample.four_calls _ _ _ _ _ _ _).
  - cbn. now left.
  - intros r [].
  - intros c r _ [].
  - repeat constructor; cbn; intuition discriminate.
  - repeat constructor; cbn; unfold Sample.noon, Sample.minutes; lia.
  - cbn. lia.
  - reflexivity.
Defined.
End GateFacts.

(** * Further properties of the code *)

(** ** checkRateLimit on every path *)

Section EvaluatorPaths.
Import RateLimit.

Variable Backend : Type.
Variable serve : Backend -> Request -> Outcome JsError Response * Backend.

Abbreviation checked := (RateLimit.checkRateLimit Backend serve).

(** Split a goal about [checkRateLimit] along the five ways a call can go,
    and rewrite with the equation of that path. *)
Ltac by_path config now w :=
  let r1 := fresh "r1" in let b1 := fresh "b1" in
  let r2 := fresh "r2" in let b2 := fresh "b2" in
  let e := fresh "e" in let err := fresh "err" in
  let Hq1 := fresh "Hq1" in let Hq2 := fresh "Hq2" in
  let He1 := fresh "He1" in let He2 := fresh "He2" in
  destruct (serve (backend w) (count_query config (now - 60 * 60 * 1000)))
    as [[r1 | err] b1] eqn:Hq1;
  [ destruct (error r1) as [e |] eqn:He1;
    [ rewrite (run_hourly_error _ serve config now w r1 b1 e Hq1 He1)
    | destruct (serve b1 (count_query config (now - 24 * 60 * 60 * 1000)))
        as [[r2 | err] b2] eqn:Hq2;
      [ destruct (error r2) as [e |] eqn:He2;
        [ rewrite (run_daily_error _ serve config now w r1 b1 r2 b2 e
                     Hq1 He1 Hq2 He2)
        | rewrite (run_evaluated _ serve config now w r1 b1 r2 b2
                     Hq1 He1 Hq2 He2) ]
      | rewrite (run_daily_thrown _ serve config now w r1 b1 err b2
                   Hq1 He1 Hq2) ] ]
  | rewrite (run_hourly_thrown _ serve config now w err b1 Hq1) ].

Lemma daily_message_cites (config : RateLimitConfig) :
  Contains (operation config) (daily_message config)
  /\ Contains (number_to_string (limitsPerDay config)) (daily_message config)
  /\ Contains "per day" (daily_message config).
Proof.
  unfold daily_message. repeat split.
  - apply Contains_middle.
  - exists ("Daily limit exceeded for " ++ operation config ++ ". Max ")%string,
      " requests per day. Try again tomorrow.".
    now rewrite !string_app_assoc.
  - exists ("Daily limit exceeded for " ++ operation config ++ ". Max "
            ++ number_to_string (limitsPerDay config) ++ " requests ")%string,
      ". Try again tomorrow.".
    now rewrite !string_app_assoc.
Qed.

Lemma checkRateLimit_returns
    (config : RateLimitConfig) (now : Timestamp) (w : World Backend) :
  exists res w', checked config now w = (Returned res, w').
Proof.
  by_path config now w; do 2 eexists; reflexivity.
Qed.

(** X1. checkRateLimit never throws: whatever the client does, it returns a
    result, and on every path the result's reset times are now + 1h and
    now + 24h. *)
Theorem checkRateLimit_always_returns
    (config : RateLimitConfig) (now : Timestamp) (w : World Backend) :
  exists res w',
    checked config now w = (Returned res, w')
    /\ resetAtHour res = now + 60 * 60 * 1000
    /\ resetAtDay res = now + 24 * 60 * 60 * 1000.
Proof.
  by_path config now w; try (do 2 eexists; repeat split; fail).
  destruct (limitsPerHour config <=? or_zero (count r1));
    [| destruct (limitsPerDay config <=? or_zero (count r2))];
    do 2 eexists; repeat split.
Qed.

(** X2. checkRateLimit only reads: it sends the hourly count query, then at
    most the daily count query, both for the configured user and operation
    on rate_limit_logs, and never anything else. *)
Theorem checkRateLimit_sends_only_count_queries
    (config : RateLimitConfig) (now : Timestamp) (w : World Backend) :
  let hourly := count_query config (now - 60 * 60 * 1000) in
  let daily := count_query config (now - 24 * 60 * 60 * 1000) in
  requests (snd (checked config now w)) = (requests w ++ [hourly])%list
  \/ requests (snd (checked config now w))
     = (requests w ++ [hourly; daily])%list.
Proof.
  cbv zeta. by_path config now w; cbn [snd requests]; auto.
Qed.

(** X3. A denial is never the product of a fault: when checkRateLimit
    answers allowed = false, both count queries had returned without error
    and one of the two counts had reached its limit; the answer then has
    remaining = 0 and a message, and nothing was written to the console. *)
Theorem denial_only_on_reached_limit
    (config : RateLimitConfig) (now : Timestamp) (w : World Backend) res :
  fst (checked config now w) = Returned res ->
  allowed res = false ->
  exists r1 b1 r2 b2,
    serve (backend w) (count_query config (now - 60 * 60 * 1000))
      = (Returned r1, b1)
    /\ error r1 = None
    /\ serve b1 (count_query config (now - 24 * 60 * 60 * 1000))
       = (Returned r2, b2)
    /\ error r2 = None
    /\ (limitsPerHour config <= or_zero (count r1)
        \/ limitsPerDay config <= or_zero (count r2))
    /\ remaining res = 0
    /\ message res <> None
    /\ console (snd (checked config now w)) = console w.
Proof.
  by_path config now w; cbn [fst snd]; intros Hres Hdenied;
    try (injection Hres as <-; discriminate Hdenied).
  exists r1, b1, r2, b2. repeat split; try assumption.
  - destruct (limitsPerHour config <=? or_zero (count r1)) eqn:Hh.
    + left. now apply Z.leb_le.
    + destruct (limitsPerDay config <=? or_zero (count r2)) eqn:Hd.
      * right. now apply Z.leb_le.
      * injection Hres as <-. discriminate Hdenied.
  - destruct (limitsPerHour config <=? or_zero (count r1));
      [| destruct (limitsPerDay config <=? or_zero (count r2))];
      injection Hres as <-; [reflexivity | reflexivity | discriminate Hdenied].
  - destruct (limitsPerHour config <=? or_zero (count r1));
      [| destruct (limitsPerDay config <=? or_zero (count r2))];
      injection Hres as <-; cbn; discriminate.
Qed.

(** X4. The daily limit: when both counts are read without error, the hourly
    count is below limitsPerHour and the daily count has reached
    limitsPerDay, the call is denied with remaining = 0, the reset times
    now + 1h and now + 24h, and a message that cites the operation, the
    daily limit and "per day". *)
Theorem daily_limit_denies
    (config : RateLimitConfig) (now : Timestamp) (w : World Backend)
    r1 b1 r2 b2 :
  serve (backend w) (count_query config (now - 60 * 60 * 1000))
    = (Returned r1, b1) ->
  error r1 = None ->
  serve b1 (count_query config (now - 24 * 60 * 60 * 1000))
    = (Returned r2, b2) ->
  error r2 = None ->
  or_zero (count r1) < limitsPerHour config ->
  limitsPerDay config <= or_zero (count r2) ->
  exists msg,
    fst (checked config now w) =
    Returned {| allowed := false;
                remaining := 0;
                resetAtHour := now + 60 * 60 * 1000;
                resetAtDay := now + 24 * 60 * 60 * 1000;
                message := Some msg |}
    /\ Contains (operation config) msg
    /\ Contains (number_to_string (limitsPerDay config)) msg
    /\ Contains "per day" msg.
Proof.
  intros Hq1 He1 Hq2 He2 Hh Hd.
  rewrite (run_evaluated _ serve config now w r1 b1 r2 b2 Hq1 He1 Hq2 He2).
  apply Z.leb_gt in Hh. apply Z.leb_le in Hd. rewrite Hh, Hd. cbn [fst].
  exists (daily_message config). split; [reflexivity |].
  apply daily_message_cites.
Qed.

(** X5. A rejected query always fails open on the hourly figure: whether the
    hourly or the daily query is the one that throws, the call is allowed
    with remaining = limitsPerHour and the usual reset times, and the error
    is written to the console once. *)
Theorem rejection_fails_open
    (config : RateLimitConfig) (now : Timestamp) (w : World Backend) err :
  (exists b1,
     serve (backend w) (count_query config (now - 60 * 60 * 1000))
       = (Thrown err, b1))
  \/ (exists r1 b1 b2,
        serve (backend w) (count_query config (now - 60 * 60 * 1000))
          = (Returned r1, b1)
        /\ error r1 = None
        /\ serve b1 (count_query config (now - 24 * 60 * 60 * 1000))
           = (Thrown err, b2)) ->
  exists res,
    fst (checked config now w) = Returned res
    /\ allowed res = true
    /\ remaining res = limitsPerHour config
    /\ resetAtHour res = now + 60 * 60 * 1000
    /\ resetAtDay res = now + 24 * 60 * 60 * 1000
    /\ console (snd (checked config now w))
       = (console w
          ++ [("Unexpected error in rate limit check:", OfJs err)])%list.
Proof.
  intros [[b1 Hq1] | [r1 [b1 [b2 [Hq1 [He1 Hq2]]]]]].
  - rewrite (run_hourly_thrown _ serve config now w err b1 Hq1).
    eexists. repeat split.
  - rewrite (run_daily_thrown _ serve config now w r1 b1 err b2 Hq1 He1 Hq2).
    eexists. repeat split.
Qed.

(** X6. Fewer recorded requests never turn an allowance into a denial: if a
    call evaluated on the counts (h, d) is allowed, a call evaluated on
    counts h' <= h and d' <= d is allowed too, with at least as much
    remaining. *)
Theorem allowance_is_monotone
    (config : RateLimitConfig) (now now' : Timestamp) (w w' : World Backend)
    r1 b1 r2 b2 r1' b1' r2' b2' res :
  serve (backend w) (count_query config (now - 60 * 60 * 1000))
    = (Returned r1, b1) ->
  error r1 = None ->
  serve b1 (count_query config (now - 24 * 60 * 60 * 1000))
    = (Returned r2, b2) ->
  error r2 = None ->
  serve (backend w') (count_query config (now' - 60 * 60 * 1000))
    = (Returned r1', b1') ->
  error r1' = None ->
  serve b1' (count_query config (now' - 24 * 60 * 60 * 1000))
    = (Returned r2', b2') ->
  error r2' = None ->
  or_zero (count r1') <= or_zero (count r1) ->
  or_zero (count r2') <= or_zero (count r2) ->
  fst (checked config now w) = Returned res ->
  allowed res = true ->
  exists res',
    fst (checked config now' w') = Returned res'
    /\ allowed res' = true
    /\ remaining res <= remaining res'.
Proof.
  intros Hq1 He1 Hq2 He2 Hq1' He1' Hq2' He2' Hh Hd.
  rewrite (run_evaluated _ serve config now w r1 b1 r2 b2 Hq1 He1 Hq2 He2).
  rewrite (run_evaluated _ serve config now' w' r1' b1' r2' b2'
             Hq1' He1' Hq2' He2').
  cbn [fst].
  destruct (limitsPerHour config <=? or_zero (count r1)) eqn:H1;
    [intros [= <-]; discriminate |].
  destruct (limitsPerDay config <=? or_zero (count r2)) eqn:H2;
    [intros [= <-]; discriminate |].
  intros [= <-] _. apply Z.leb_gt in H1, H2.
  assert (H1' : (limitsPerHour config <=? or_zero (count r1')) = false)
    by (apply Z.leb_gt; lia).
  assert (H2' : (limitsPerDay config <=? or_zero (count r2')) = false)
    by (apply Z.leb_gt; lia).
  rewrite H1', H2'. eexists. repeat split. cbn. lia.
Qed.

(** X7. A limit of zero (or below) closes the operation as long as the store
    answers: every call evaluated without error on a count that is not
    negative is denied.  *)
Theorem zero_limit_denies
    (config : RateLimitConfig) (now : Timestamp) (w : World Backend)
    r1 b1 r2 b2 :
  limitsPerHour config <= 0 ->
  0 <= or_zero (count r1) ->
  serve (backend w) (count_query config (now - 60 * 60 * 1000))
    = (Returned r1, b1) ->
  error r1 = None ->
  serve b1 (count_query config (now - 24 * 60 * 60 * 1000))
    = (Returned r2, b2) ->
  error r2 = None ->
  exists res,
    fst (checked config now w) = Returned res /\ allowed res = false.
Proof.
  intros Hzero Hcount Hq1 He1 Hq2 He2.
  rewrite (run_evaluated _ serve config now w r1 b1 r2 b2 Hq1 He1 Hq2 He2).
  assert (H : (limitsPerHour config <=? or_zero (count r1)) = true)
    by (apply Z.leb_le; lia).
  rewrite H. eexists. split; reflexivity.
Qed.

End EvaluatorPaths.

(** ** logRateLimitRequest: what is sent, what is ignored *)

Section RequestLogging.
Import RateLimit.

Variable Backend : Type.
Variable serve : Backend -> Request -> Outcome JsError Response * Backend.

(** X8. logRateLimitRequest sends exactly one request, whatever comes back:
    the insert into rate_limit_logs of the user, operation, success flag and
    metadata it was given, with ip_address null. *)
Theorem logRateLimitRequest_sends_one_insert
    user op success metadata (w : World Backend) :
  requests (snd (logRateLimitRequest Backend serve user op success metadata w))
  = (requests w
     ++ [Insert "rate_limit_logs"
           {| ins_user_id := user;
              ins_operation := op;
              ins_success := success;
              ins_metadata := metadata;
              ins_ip_address := VNull |}])%list.
Proof.
  unfold logRateLimitRequest, try_catch, bind, await, console_error, ret.
  destruct (serve _ _) as [[r | err] b]; reflexivity.
Qed.

(** X9. The response of the insert is never looked at: when the insert
    resolves, with or without an error member, logRateLimitRequest returns,
    writes nothing to the console and leaves the backend as the insert left
    it. *)
Theorem logRateLimitRequest_drops_response
    user op success metadata (w : World Backend) r b :
  serve (backend w)
    (Insert "rate_limit_logs"
       {| ins_user_id := user; ins_operation := op; ins_success := success;
          ins_metadata := metadata; ins_ip_address := VNull |})
    = (Returned r, b) ->
  fst (logRateLimitRequest Backend serve user op success metadata w)
    = Returned tt
  /\ console (snd (logRateLimitRequest Backend serve
                     user op success metadata w)) = console w
  /\ backend (snd (logRateLimitRequest Backend serve
                     user op success metadata w)) = b.
Proof.
  intros Hq. unfold logRateLimitRequest, try_catch, bind, await, ret.
  rewrite Hq. repeat split.
Qed.

(** X10. The gate never throws: check-then-log returns for every client,
    and a call is answered with 429 only if the check denied it. *)
Theorem gated_request_always_returns
    (config : RateLimitConfig) (now : Timestamp) (w : World Backend) :
  exists processed w',
    Gate.gated_request Backend serve config now w = (Returned processed, w')
    /\ (processed = false ->
        exists res,
          fst (checkRateLimit Backend serve config now w) = Returned res
          /\ allowed res = false).
Proof.
  destruct (checkRateLimit_returns Backend serve config now w)
    as [res [w1 Hcheck]].
  unfold Gate.gated_request, bind. rewrite Hcheck.
  destruct (allowed res) eqn:Hallowed; cbn [negb].
  - destruct (LoggingFacts.logRateLimitRequest_returns Backend serve
                (userId config) (operation config) true None w1)
      as [w2 Hlog].
    rewrite Hlog. exists true, w2. split; [reflexivity | discriminate].
  - exists false, w1. split; [reflexivity |]. intros _.
    exists res. split; [reflexivity | assumption].
Qed.

End RequestLogging.

(** ** get_rate_limit_status: windows and edges *)

Module StatusWindows.
Import Schema Pg.

Lemma filter_length_le {A} (f g : A -> bool) (l : list A) :
  (forall x, f x = true -> g x = true) ->
  (List.length (filter f l) <= List.length (filter g l))%nat.
Proof.
  intros Himp. induction l as [| x l IH]; cbn; [lia |].
  destruct (f x) eqn:Hf.
  - rewrite (Himp x Hf). cbn. lia.
  - destruct (g x); cbn; lia.
Qed.

(** A row inside the window of a later cutoff is inside the window of an
    earlier one. *)
Lemma in_window_earlier u op (c c' : Timestamp) r :
  c' <= c -> in_window u op c r = true -> in_window u op c' r = true.
Proof.
  unfold in_window, eq3_text, gt3_time, and3, is_true. intros Hle.
  destruct (c <? rl_created_at r) eqn:Hc.
  - apply Z.ltb_lt in Hc.
    assert (Hc' : (c' <? rl_created_at r) = true) by (apply Z.ltb_lt; lia).
    now rewrite Hc'.
  - destruct u, op; try destruct (String.eqb (rl_user_id r) _);
      try destruct (String.eqb (rl_operation r) _); discriminate.
Qed.

Lemma in_window_after u op (c : Timestamp) r :
  in_window u op c r = true -> c < rl_created_at r.
Proof.
  unfold in_window, eq3_text, gt3_time, and3, is_true.
  destruct (c <? rl_created_at r) eqn:Hc.
  - intros _. now apply Z.ltb_lt.
  - destruct u, op; try destruct (String.eqb (rl_user_id r) _);
      try destruct (String.eqb (rl_operation r) _); discriminate.
Qed.


(** What a successful call computes, with the guard out of the way. *)
Lemma status_when_returned (s : Session) (db : Db) u op st :
  fst (get_rate_limit_status s db u op) = Returned st ->
  let hour_rows :=
    filter (in_window u op (now s - 60 * 60 * 1000)) (rate_limit_logs db) in
  let day_rows :=
    filter (in_window u op (now s - 24 * 60 * 60 * 1000))
           (rate_limit_logs db) in
  st = {| requests_this_hour := COUNT hour_rows;
          requests_this_day := COUNT day_rows;
          hour_resets_at :=
            if 0 <? COUNT hour_rows
            then option_map (fun t => t + 60 * 60 * 1000)
                            (MIN_created_at hour_rows)
            else None;
          day_resets_at :=
            if 0 <? COUNT day_rows
            then option_map (fun t => t + 24 * 60 * 60 * 1000)
                            (MIN_created_at day_rows)
            else None |}.
Proof.
  unfold get_rate_limit_status.
  destruct (is_true (neq3_text u (auth_uid s))); cbn [fst];
    [discriminate |].
  intros [= <-]. reflexivity.
Qed.

(** X11. In every status returned, the hour's count is at most the day's
    count, and when both reset times are present the day's oldest entry is
    not younger than the hour's: dayResetsAt - 1 day <= hourResetsAt - 1
    hour.  An hourly reset time never comes without a daily one. *)
Theorem status_hour_within_day (s : Session) (db : Db) u op st :
  fst (get_rate_limit_status s db u op) = Returned st ->
  0 <= requests_this_hour st <= requests_this_day st
  /\ (hour_resets_at st <> None -> day_resets_at st <> None)
  /\ (forall th td,
        hour_resets_at st = Some th ->
        day_resets_at st = Some td ->
        td - 24 * 60 * 60 * 1000 <= th - 60 * 60 * 1000).
Proof.
  intros Hst. apply status_when_returned in Hst. cbv zeta in Hst.
  set (hour_rows := filter (in_window u op (now s - 60 * 60 * 1000))
                      (rate_limit_logs db)) in *.
  set (day_rows := filter (in_window u op (now s - 24 * 60 * 60 * 1000))
                     (rate_limit_logs db)) in *.
  assert (Hsub : forall r, In r hour_rows -> In r day_rows).
  { intros r Hr. apply filter_In in Hr as [Hin Hw]. apply filter_In.
    split; [assumption |].
    apply (in_window_earlier u op (now s - 60 * 60 * 1000)); [lia | exact Hw]. }
  assert (Hle : COUNT hour_rows <= COUNT day_rows).
  { unfold COUNT, hour_rows, day_rows. apply Nat2Z.inj_le.
    apply filter_length_le. intros r.
    apply (in_window_earlier u op (now s - 60 * 60 * 1000)). lia. }
  subst st. cbn [requests_this_hour requests_this_day hour_resets_at
                 day_resets_at].
  split; [split; [unfold COUNT; lia | exact Hle] |]. split.
  - destruct (0 <? COUNT hour_rows) eqn:Hh; [| congruence]. intros _.
    apply Z.ltb_lt in Hh.
    assert (Hd : (0 <? COUNT day_rows) = true) by (apply Z.ltb_lt; lia).
    rewrite Hd. destruct (MIN_created_at day_rows) eqn:Hmin; [discriminate |].
    apply StatusFacts.MIN_created_at_none in Hmin. rewrite Hmin in Hd.
    discriminate Hd.
  - intros th td Hth Htd.
    destruct (0 <? COUNT hour_rows); [| discriminate].
    destruct (0 <? COUNT day_rows); [| discriminate].
    destruct (MIN_created_at hour_rows) as [mh |] eqn:Hmh; [| discriminate].
    destruct (MIN_created_at day_rows) as [md |] eqn:Hmd; [| discriminate].
    cbn in Hth, Htd. injection Hth as <-. injection Htd as <-.
    destruct (StatusFacts.MIN_created_at_some _ _ Hmh) as [[r [Hin Hr]] _].
    destruct (StatusFacts.MIN_created_at_some _ _ Hmd) as [_ Hlow].
    specialize (Hlow r (Hsub r Hin)). lia.
Qed.

(** X12. A reset time that is returned lies in the future: hourResetsAt and
    dayResetsAt, when not null, are strictly after NOW(). *)
Theorem status_resets_after_now (s : Session) (db : Db) u op st :
  fst (get_rate_limit_status s db u op) = Returned st ->
  (forall t, hour_resets_at st = Some t -> now s < t)
  /\ (forall t, day_resets_at st = Some t -> now s < t).
Proof.
  intros Hst. apply status_when_returned in Hst. cbv zeta in Hst. subst st.
  cbn [hour_resets_at day_resets_at].
  split; intros t Ht;
    destruct (0 <? COUNT _); try discriminate;
    destruct (MIN_created_at _) as [m |] eqn:Hmin; try discriminate;
    cbn in Ht; injection Ht as <-;
    destruct (StatusFacts.MIN_created_at_some _ _ Hmin) as [[r [Hin Hr]] _];
    apply filter_In in Hin as [_ Hw]; apply in_window_after in Hw; lia.
Qed.

(** X13. NULL arguments count nothing.  A NULL p_user_id is never refused,
    whoever calls, and a status returned for a NULL p_user_id or a NULL
    p_operation is all zeros and nulls. *)
Theorem status_of_null_arguments (s : Session) (db : Db) u op :
  (u = None ->
   exists st, fst (get_rate_limit_status s db u op) = Returned st)
  /\ (forall st,
        u = None \/ op = None ->
        fst (get_rate_limit_status s db u op) = Returned st ->
        st = {| requests_this_hour := 0; requests_this_day := 0;
                hour_resets_at := None; day_resets_at := None |}).
Proof.
  split.
  - intros ->. unfold get_rate_limit_status. cbn. eexists. reflexivity.
  - intros st Hnull Hst. apply status_when_returned in Hst. cbv zeta in Hst.
    assert (Hnone : forall c,
              filter (in_window u op c) (rate_limit_logs db) = []).
    { intros c. apply GateFacts.filter_nothing. intros r _.
      destruct Hnull as [-> | ->].
      - apply StatusFacts.in_window_null_user.
      - unfold in_window, eq3_text, gt3_time, and3, is_true.
        destruct u; try destruct (String.eqb _ _);
          destruct (c <? rl_created_at r); reflexivity. }
    rewrite !Hnone in Hst. exact Hst.
Qed.

(** X14. The status of a pair depends on that pair's entries of the last
    day only: a further row of another user, of another operation, or
    created at or before NOW() - 1 day changes nothing in it. *)
Theorem status_ignores_other_rows
    (s : Session) (db : Db) (u op : string) (r : RateLimitLog) :
  rl_user_id r <> u \/ rl_operation r <> op
  \/ rl_created_at r <= now s - 24 * 60 * 60 * 1000 ->
  get_rate_limit_status s (Constraints.with_rate_limit_log db r)
    (Some u) (Some op)
  = get_rate_limit_status s db (Some u) (Some op).
Proof.
  intros Hother.
  assert (Hout : forall c, now s - 24 * 60 * 60 * 1000 <= c ->
                           in_window (Some u) (Some op) c r = false).
  { intros c Hc. rewrite StatusFacts.in_window_counted. unfold Spec.counted.
    destruct Hother as [H | [H | H]].
    - apply String.eqb_neq in H. now rewrite H.
    - apply String.eqb_neq in H. now rewrite H, andb_false_r.
    - assert (Hlt : (c <? rl_created_at r) = false) by (apply Z.ltb_ge; lia).
      rewrite Hlt. apply andb_false_r. }
  unfold get_rate_limit_status, Constraints.with_rate_limit_log.
  cbn [rate_limit_logs]. rewrite !filter_app. cbn [filter].
  unfold interval_1_hour, interval_1_day.
  rewrite !Hout by lia. now rewrite !app_nil_r.
Qed.

(** X15. With both identities present the guard is exact: a caller other
    than the requested user gets the Unauthorized exception before any table
    is read, and the user themself gets a status after two reads of
    rate_limit_logs. *)
Theorem status_guard_on_present_identities
    (s : Session) (db : Db) (caller u : uuid) (op : option string) :
  auth_uid s = Some caller ->
  (caller <> u ->
   get_rate_limit_status s db (Some u) op = (Thrown unauthorized, []))
  /\ (caller = u ->
      exists st,
        get_rate_limit_status s db (Some u) op
        = (Returned st, [Scan "rate_limit_logs"; Scan "rate_limit_logs"])).
Proof.
  intros Hc. unfold get_rate_limit_status, neq3_text, eq3_text.
  rewrite Hc. cbn [option_map]. split.
  - intros Hneq. destruct (String.eqb u caller) eqn:E; [| reflexivity].
    apply String.eqb_eq in E. congruence.
  - intros ->. rewrite String.eqb_refl. cbn. eexists. reflexivity.
Qed.

End StatusWindows.

(** ** log_audit_event: success, failure, integrity *)

Module AuditFacts.
Import Schema Pg Constraints.

(** The row a successful call writes. *)
Lemma log_audit_event_returned (s : Session) (db db' : Db)
    u action rtype rid md id :
  log_audit_event s db u action rtype rid md = (Returned id, db') ->
  exists u' a rt,
    u = Some u' /\ action = Some a /\ rtype = Some rt
    /\ In u' (auth_users db)
    /\ ~ In (gen_random_uuid s) (map al_id (audit_logs db))
    /\ id = gen_random_uuid s
    /\ db' = {| auth_users := auth_users db;
                rate_limit_logs := rate_limit_logs db;
                audit_logs :=
                  audit_logs db ++
                  [{| al_id := gen_random_uuid s;
                      al_user_id := u';
                      al_action := a;
                      al_resource_type := rt;
                      al_resource_id := rid;
                      al_metadata := md;
                      al_ip_address := None;
                      al_user_agent := None;
                      al_created_at := now s |}] |}.
Proof.
  unfold log_audit_event, insert_audit_log.
  destruct u as [u' |]; [| discriminate].
  destruct action as [a |]; [| discriminate].
  destruct rtype as [rt |]; [| discriminate].
  destruct (existsb _ (audit_logs db)) eqn:Hclash; [discriminate |].
  destruct (existsb (String.eqb u') (auth_users db)) eqn:Hknown;
    cbn [negb]; [| discriminate].
  intros [= <- <-]. exists u', a, rt. repeat split.
  - apply existsb_exists in Hknown as [x [Hin Heq]].
    apply String.eqb_eq in Heq. now subst x.
  - intros Hin. apply in_map_iff in Hin as [row [Hid Hrow]].
    assert (Hex : existsb (fun r => String.eqb (al_id r) (gen_random_uuid s))
                    (audit_logs db) = true).
    { apply existsb_exists. exists row. split; [assumption |].
      now apply String.eqb_eq. }
    congruence.
Qed.

Lemma NoDup_snoc {A} (l : list A) (x : A) :
  NoDup l -> ~ In x l -> NoDup (l ++ [x]).
Proof.
  induction l as [| y l IH]; intros Hnd Hx; cbn.
  - constructor; [intros [] | constructor].
  - inversion Hnd as [| ? ? Hy Hnd']; subst. constructor.
    + intros Hin. apply in_app_or in Hin as [Hin | [-> | []]].
      * contradiction.
      * apply Hx. now left.
    + apply IH; [assumption |]. intros Hin. apply Hx. now right.
Qed.

(** A lookup by key finds the row appended last when no earlier row has
    the key. *)
Lemma find_last_fresh (rows : list AuditLog) (row : AuditLog) (id : uuid) :
  ~ In id (map al_id rows) ->
  al_id row = id ->
  find (fun a => String.eqb (al_id a) id) (rows ++ [row]) = Some row.
Proof.
  intros Hfresh Hid. induction rows as [| r rows IH]; cbn.
  - now rewrite Hid, String.eqb_refl.
  - destruct (String.eqb (al_id r) id) eqn:Heq.
    + exfalso. apply Hfresh. left. now apply String.eqb_eq.
    + apply IH. intros Hin. apply Hfresh. now right.
Qed.

(** X16. log_audit_event succeeds exactly when user, action and resource
    type are not NULL, the user is in auth.users and the generated id is not
    already a key of audit_logs. *)
Theorem log_audit_event_succeeds_iff (s : Session) (db : Db)
    u action rtype rid md :
  (exists id db',
     log_audit_event s db u action rtype rid md = (Returned id, db'))
  <->
  (exists u' a rt,
     u = Some u' /\ action = Some a /\ rtype = Some rt
     /\ In u' (auth_users db)
     /\ ~ In (gen_random_uuid s) (map al_id (audit_logs db))).
Proof.
  split.
  - intros [id [db' Hrun]].
    destruct (log_audit_event_returned _ _ _ _ _ _ _ _ _ Hrun)
      as [u' [a [rt [Hu [Ha [Hrt [Hknown [Hfresh _]]]]]]]].
    exists u', a, rt. auto.
  - intros [u' [a [rt [-> [-> [-> [Hknown Hfresh]]]]]]].
    unfold log_audit_event, insert_audit_log.
    assert (Hclash : existsb (fun r => String.eqb (al_id r) (gen_random_uuid s))
                       (audit_logs db) = false).
    { apply not_true_is_false. intros Hex.
      apply existsb_exists in Hex as [row [Hin Heq]].
      apply String.eqb_eq in Heq. apply Hfresh. rewrite <- Heq.
      now apply in_map. }
    assert (Huser : existsb (String.eqb u') (auth_users db) = true).
    { apply existsb_exists. exists u'. split; [assumption |].
      apply String.eqb_refl. }
    rewrite Hclash, Huser. cbn [negb]. do 2 eexists. reflexivity.
Qed.

(** X17. A successful log_audit_event returns the generated id and appends
    one row: the one found again under that id, holding the user, action,
    resource type, resource id and metadata given, NOW() as created_at and
    NULL for ip_address and user_agent.  The rows already there, the users
    and rate_limit_logs are as before. *)
Theorem log_audit_event_appends_one_row (s : Session) (db db' : Db)
    u action rtype rid md id :
  log_audit_event s db u action rtype rid md = (Returned id, db') ->
  exists row,
    find_audit_log db' id = Some row
    /\ audit_logs db' = (audit_logs db ++ [row])%list
    /\ al_id row = id
    /\ Some (al_user_id row) = u
    /\ Some (al_action row) = action
    /\ Some (al_resource_type row) = rtype
    /\ al_resource_id row = rid
    /\ al_metadata row = md
    /\ al_created_at row = now s
    /\ al_ip_address row = None
    /\ al_user_agent row = None
    /\ rate_limit_logs db' = rate_limit_logs db
    /\ auth_users db' = auth_users db.
Proof.
  intros Hrun.
  destruct (log_audit_event_returned _ _ _ _ _ _ _ _ _ Hrun)
    as [u' [a [rt [-> [-> [-> [_ [Hfresh [-> ->]]]]]]]]].
  eexists. split; [| repeat split].
  unfold find_audit_log. cbn [audit_logs].
  apply find_last_fresh; [exact Hfresh | reflexivity].
Qed.

(** What a failed call leaves and raises. *)
Lemma log_audit_event_thrown (s : Session) (db db' : Db)
    u action rtype rid md exn :
  log_audit_event s db u action rtype rid md = (Thrown exn, db') ->
  db' = db
  /\ (exn = not_null_violation "user_id"
      \/ exn = not_null_violation "action"
      \/ exn = not_null_violation "resource_type"
      \/ exn = unique_violation "id"
      \/ exn = foreign_key_violation "user_id").
Proof.
  unfold log_audit_event, insert_audit_log. intros Hrun.
  destruct u as [u' |]; cbn in Hrun;
    [| injection Hrun as <- <-; auto].
  destruct action as [a |]; cbn in Hrun;
    [| injection Hrun as <- <-; auto].
  destruct rtype as [rt |]; cbn in Hrun;
    [| injection Hrun as <- <-; auto].
  destruct (existsb _ (audit_logs db)); cbn in Hrun;
    [injection Hrun as <- <-; auto 6 |].
  destruct (existsb (String.eqb u') (auth_users db)); cbn in Hrun;
    [discriminate | injection Hrun as <- <-; auto 6].
Qed.

(** X18. A failed log_audit_event leaves the database as it was, and what
    it raises is a violation of a NOT NULL column (23502), of the reference
    to auth.users (23503) or of the primary key (23505). *)
Theorem log_audit_event_fails_atomically (s : Session) (db db' : Db)
    u action rtype rid md exn :
  log_audit_event s db u action rtype rid md = (Thrown exn, db') ->
  db' = db
  /\ (sqlstate exn = "23502" \/ sqlstate exn = "23503"
      \/ sqlstate exn = "23505").
Proof.
  intros Hrun. apply log_audit_event_thrown in Hrun as [-> Hexn].
  split; [reflexivity |].
  destruct Hexn as [-> | [-> | [-> | [-> | ->]]]]; cbn; auto.
Qed.

(** X19. log_audit_event keeps the constraints of the schema: on a
    database whose ids are unique and whose log rows all belong to users of
    auth.users, the database after the call, successful or not, is such a
    database again. *)
Theorem log_audit_event_keeps_constraints (s : Session) (db : Db)
    u action rtype rid md :
  well_formed db ->
  well_formed (snd (log_audit_event s db u action rtype rid md)).
Proof.
  intros Hwf.
  destruct (log_audit_event s db u action rtype rid md) as [[id | exn] db']
    eqn:Hrun; cbn [snd].
  - destruct (log_audit_event_returned _ _ _ _ _ _ _ _ _ Hrun)
      as [u' [a [rt [_ [_ [_ [Hknown [Hfresh [_ ->]]]]]]]]].
    destruct Hwf as [Hrl [Hal [Hfk_rl Hfk_al]]].
    unfold well_formed. cbn [rate_limit_logs audit_logs auth_users].
    repeat split; try assumption.
    + rewrite map_app. now apply NoDup_snoc.
    + intros row Hin. apply in_app_or in Hin as [Hin | [<- | []]].
      * now apply Hfk_al.
      * exact Hknown.
  - apply log_audit_event_thrown in Hrun as [-> _]. exact Hwf.
Qed.

(** X20. The audit trail and the rate-limit accounting are independent:
    whatever log_audit_event does, the status get_rate_limit_status reports
    afterwards is the one it reported before. *)
Theorem log_audit_event_leaves_status (s s' : Session) (db : Db)
    u action rtype rid md p_user_id p_operation :
  get_rate_limit_status s'
    (snd (log_audit_event s db u action rtype rid md)) p_user_id p_operation
  = get_rate_limit_status s' db p_user_id p_operation.
Proof.
  destruct (log_audit_event s db u action rtype rid md) as [[id | exn] db']
    eqn:Hrun; cbn [snd].
  - destruct (log_audit_event_returned _ _ _ _ _ _ _ _ _ Hrun)
      as [u' [a [rt [_ [_ [_ [_ [_ [_ ->]]]]]]]]].
    reflexivity.
  - apply log_audit_event_thrown in Hrun as [-> _]. reflexivity.
Qed.

End AuditFacts.

(** ** The gate on the store: what is logged, what is counted *)

Module GateStore.
Import Schema RateLimit Gate Constraints.

(** X21. A call answered with 429 is not logged: the store is left as it
    was, and on a store that answers this happens only when one of the two
    counts has reached its limit. *)
Theorem denied_call_is_not_logged
    (config : RateLimitConfig) (db : Db) (c : Call) :
  fst (serve_call config db c) = false ->
  snd (serve_call config db c) = db
  /\ (limitsPerHour config <= hourly_count config db (js_now c)
      \/ limitsPerDay config <= daily_count config db (js_now c)).
Proof.
  rewrite GateFacts.serve_call_cases.
  destruct (limitsPerHour config <=? hourly_count config db (js_now c))
    eqn:Hh.
  - intros _. split; [reflexivity |]. left. now apply Z.leb_le.
  - destruct (limitsPerDay config <=? daily_count config db (js_now c))
      eqn:Hd.
    + intros _. split; [reflexivity |]. right. now apply Z.leb_le.
    + discriminate.
Qed.

(** X22. Entries age out and a day contains its last hour: on one and the
    same log, the hourly count of a check is at most its daily count, and
    neither count is larger for a later check than for an earlier one. *)
Theorem counts_shrink_with_time
    (config : RateLimitConfig) (db : Db) (t t' : Timestamp) :
  t <= t' ->
  hourly_count config db t <= daily_count config db t
  /\ hourly_count config db t' <= hourly_count config db t
  /\ daily_count config db t' <= daily_count config db t.
Proof.
  intros Hle. unfold hourly_count, daily_count.
  repeat split; apply Nat2Z.inj_le; apply StatusWindows.filter_length_le;
    intros r; unfold PostgREST.selected;
    destruct (String.eqb (rl_user_id r) (userId config)),
      (String.eqb (rl_operation r) (operation config));
    cbn [andb]; try discriminate;
    intros H; apply Z.leb_le in H; apply Z.leb_le; lia.
Qed.

(** X23. A processed call is counted from then on, for its own pair only:
    with the user known, the new id unused and both counts below their
    limits, the call is processed, every check made within the hour (day)
    after the entry was written counts one more for the pair in its hourly
    (daily) window, and the counts of any other user or operation are those
    of before. *)
Theorem processed_call_is_counted
    (config : RateLimitConfig) (db : Db) (c : Call) :
  In (userId config) (auth_users db) ->
  (forall r, In r (rate_limit_logs db) -> rl_id r <> new_id c) ->
  hourly_count config db (js_now c) < limitsPerHour config ->
  daily_count config db (js_now c) < limitsPerDay config ->
  let db' := snd (serve_call config db c) in
  fst (serve_call config db c) = true
  /\ (forall t, t - 60 * 60 * 1000 <= db_now c ->
                hourly_count config db' t = hourly_count config db t + 1)
  /\ (forall t, t - 24 * 60 * 60 * 1000 <= db_now c ->
                daily_count config db' t = daily_count config db t + 1)
  /\ (forall other t,
        userId other <> userId config
        \/ operation other <> operation config ->
        hourly_count other db' t = hourly_count other db t
        /\ daily_count other db' t = daily_count other db t).
Proof.
  intros Hknown Hfresh Hh Hd. cbv zeta.
  rewrite GateFacts.serve_call_cases.
  apply Z.leb_gt in Hh, Hd. rewrite Hh, Hd. cbn [fst snd].
  destruct (GateFacts.insert_row_appends config db c Hknown Hfresh)
    as [row [Hrows [_ [_ [Hu [Ho Ht]]]]]].
  split; [reflexivity |].
  set (db' := snd (PostgREST.insert_row _ db _ _)) in *.
  assert (Hcount : forall user op since,
            Z.of_nat (List.length
              (filter (PostgREST.selected user op since)
                      (rate_limit_logs db')))
            = Z.of_nat (List.length
                (filter (PostgREST.selected user op since)
                        (rate_limit_logs db)))
              + (if PostgREST.selected user op since row then 1 else 0)).
  { intros user op since. rewrite Hrows, filter_app, length_app.
    cbn [filter]. destruct (PostgREST.selected user op since row);
      cbn [List.length]; lia. }
  assert (Hmine : forall since, since <= db_now c ->
            PostgREST.selected (userId config) (operation config) since row
            = true).
  { intros since Hsince. unfold PostgREST.selected.
    rewrite Hu, Ho, Ht, !String.eqb_refl. cbn [andb]. now apply Z.leb_le. }
  assert (Hnot : forall other since,
            userId other <> userId config
            \/ operation other <> operation config ->
            PostgREST.selected (userId other) (operation other) since row
            = false).
  { intros other since Hother. unfold PostgREST.selected. rewrite Hu, Ho.
    destruct Hother as [H | H]; apply not_eq_sym in H;
      apply String.eqb_neq in H; rewrite H;
      [reflexivity | now rewrite andb_false_r]. }
  unfold hourly_count, daily_count. repeat split; intros.
  - rewrite Hcount, Hmine by assumption. reflexivity.
  - rewrite Hcount, Hmine by assumption. reflexivity.
  - rewrite Hcount, Hnot by assumption. lia.
  - rewrite Hcount, Hnot by assumption. lia.
Qed.

(** X24. The gate keeps the constraints of the schema: served from a
    database whose ids are unique and whose log rows belong to users of
    auth.users, a call, processed or denied, logged or refused by the
    store, leaves such a database. *)
Theorem serve_call_keeps_constraints
    (config : RateLimitConfig) (db : Db) (c : Call) :
  well_formed db ->
  well_formed (snd (serve_call config db c)).
Proof.
  intros Hwf. rewrite GateFacts.serve_call_cases.
  destruct (limitsPerHour config <=? hourly_count config db (js_now c));
    [exact Hwf |].
  destruct (limitsPerDay config <=? daily_count config db (js_now c));
    [exact Hwf |].
  cbn [snd]. unfold PostgREST.insert_row, logging_session, logged_row.
  change (String.eqb "rate_limit_logs" "rate_limit_logs") with true.
  cbv iota. cbn [gen_random_uuid now ins_user_id].
  destruct (existsb _ (rate_limit_logs db)) eqn:Hclash; [exact Hwf |].
  destruct (existsb (String.eqb (userId config)) (auth_users db)) eqn:Hknown;
    cbn [negb snd]; [| exact Hwf].
  destruct Hwf as [Hrl [Hal [Hfk_rl Hfk_al]]].
  unfold well_formed. cbn [rate_limit_logs audit_logs auth_users].
  repeat split; try assumption.
  - rewrite map_app. apply AuditFacts.NoDup_snoc; [assumption |].
    intros Hin. apply in_map_iff in Hin as [r [Hid Hr]].
    assert (Hex : existsb (fun r => String.eqb (rl_id r) (new_id c))
                    (rate_limit_logs db) = true).
    { apply existsb_exists. exists r. split; [assumption |].
      now apply String.eqb_eq. }
    congruence.
  - intros r Hin. apply in_app_or in Hin as [Hin | [<- | []]].
    + now apply Hfk_rl.
    + cbn [rl_user_id].
      apply existsb_exists in Hknown as [x [Hx Heq]].
      apply String.eqb_eq in Heq. now subst x.
Qed.

End GateStore.

(** ** The further properties on concrete runs *)

Module ExtraRuns.
Import RateLimit Schema Scripted Sample Fixtures.

Abbreviation run script :=
  (checkRateLimit Script Scripted.serve notes_3_10 noon (start script)).

(** Three counted in the hour: denied, and the console stays empty. *)
Lemma denial_only_on_reached_limit_witness :
  exists r1 r2,
    (limitsPerHour notes_3_10 <= or_zero (count r1)
     \/ limitsPerDay notes_3_10 <= or_zero (count r2))
    /\ console (snd (run [ok 3; ok 4])) = [].
Proof.
  destruct (denial_only_on_reached_limit Script Scripted.serve notes_3_10
              noon (start [ok 3; ok 4])
              {| allowed := false; remaining := 0;
                 resetAtHour := noon + 60 * 60 * 1000;
                 resetAtDay := noon + 24 * 60 * 60 * 1000;
                 message := Some (hourly_message notes_3_10) |}
              eq_refl eq_refl)
    as [r1 [b1 [r2 [b2 [_ [_ [_ [_ [Hlimit [_ [_ Hconsole]]]]]]]]]]].
  exists r1, r2. split; assumption.
Defined.

(** Two counted in the hour, ten in the day. *)
Lemma daily_limit_denies_witness :
  exists msg,
    fst (run [ok 2; ok 10]) =
    Returned {| allowed := false; remaining := 0;
                resetAtHour := noon + 60 * 60 * 1000;
                resetAtDay := noon + 24 * 60 * 60 * 1000;
                message := Some msg |}
    /\ Contains "generate-notes" msg
    /\ Contains "10" msg
    /\ Contains "per day" msg.
Proof.
  refine (daily_limit_denies Script Scripted.serve notes_3_10 noon
            (start [ok 2; ok 10]) _ _ _ _
            eq_refl eq_refl eq_refl eq_refl _ _); cbn; lia.
Defined.

(** The daily query is rejected after an hourly count of one. *)
Lemma rejection_fails_open_witness :
  exists res,
    fst (run [ok 1; Thrown network_down]) = Returned res
    /\ allowed res = true
    /\ remaining res = 3
    /\ resetAtHour res = noon + 60 * 60 * 1000
    /\ resetAtDay res = noon + 24 * 60 * 60 * 1000
    /\ console (snd (run [ok 1; Thrown network_down]))
       = [("Unexpected error in rate limit check:", OfJs network_down)].
Proof.
  refine (rejection_fails_open Script Scripted.serve notes_3_10 noon
            (start [ok 1; Thrown network_down]) network_down _).
  right. exists {| count := Some 1; error := None |}, [Thrown network_down], [].
  repeat split.
Defined.

(** Allowed on (2, 5), so allowed on (1, 4), with no less remaining. *)
Lemma allowance_is_monotone_witness :
  exists res',
    fst (run [ok 1; ok 4]) = Returned res'
    /\ allowed res' = true
    /\ 0 <= remaining res'.
Proof.
  refine (allowance_is_monotone Script Scripted.serve notes_3_10 noon noon
            (start [ok 2; ok 5]) (start [ok 1; ok 4]) _ _ _ _ _ _ _ _
            {| allowed := true; remaining := 0;
               resetAtHour := noon + 60 * 60 * 1000;
               resetAtDay := noon + 24 * 60 * 60 * 1000;
               message := None |}
            eq_refl eq_refl eq_refl eq_refl eq_refl eq_refl eq_refl eq_refl
            _ _ eq_refl eq_refl); cbn; lia.
Defined.

(** An operation closed by a limit of zero, on an empty log. *)
Lemma zero_limit_denies_witness :
  exists res,
    fst (checkRateLimit Script Scripted.serve notes_closed noon
           (start [ok 0; ok 0])) = Returned res
    /\ allowed res = false.
Proof.
  refine (zero_limit_denies Script Scripted.serve notes_closed
            noon (start [ok 0; ok 0]) _ _ _ _ _ _
            eq_refl eq_refl eq_refl eq_refl); cbn; lia.
Defined.

(** The insert resolves with a storage error in its response. *)
Lemma logRateLimitRequest_drops_response_witness :
  fst (logRateLimitRequest Script Scripted.serve
         user_a "generate-notes" true None (start [failed None]))
    = Returned tt
  /\ console (snd (logRateLimitRequest Script Scripted.serve
                     user_a "generate-notes" true None (start [failed None])))
     = []
  /\ backend (snd (logRateLimitRequest Script Scripted.serve
                     user_a "generate-notes" true None (start [failed None])))
     = [].
Proof.
  exact (logRateLimitRequest_drops_response Script Scripted.serve
           user_a "generate-notes" true None (start [failed None])
           _ _ eq_refl).
Defined.

(** user-a's status at noon, three entries in the last half hour. *)
Lemma status_hour_within_day_witness :
  0 <= 3 <= 3
  /\ (Pg.hour_resets_at status_at_noon <> None ->
      Pg.day_resets_at status_at_noon <> None)
  /\ (forall th td,
        Pg.hour_resets_at status_at_noon = Some th ->
        Pg.day_resets_at status_at_noon = Some td ->
        td - 24 * 60 * 60 * 1000 <= th - 60 * 60 * 1000).
Proof.
  exact (StatusWindows.status_hour_within_day (at_noon (Some user_a))
           (db_of three_in_hour) (Some user_a) (Some "generate-notes")
           status_at_noon eq_refl).
Defined.

Lemma status_resets_after_now_witness :
  (forall t, Pg.hour_resets_at status_at_noon = Some t -> noon < t)
  /\ (forall t, Pg.day_resets_at status_at_noon = Some t -> noon < t).
Proof.
  exact (StatusWindows.status_resets_after_now (at_noon (Some user_a))
           (db_of three_in_hour) (Some user_a) (Some "generate-notes")
           status_at_noon eq_refl).
Defined.

(** user-b asks with a NULL p_user_id. *)
Lemma status_of_null_arguments_witness :
  fst (Pg.get_rate_limit_status (at_noon (Some user_b)) (db_of three_in_hour)
         None (Some "generate-notes"))
  = Returned {| Pg.requests_this_hour := 0; Pg.requests_this_day := 0;
                Pg.hour_resets_at := None; Pg.day_resets_at := None |}.
Proof.
  destruct (StatusWindows.status_of_null_arguments (at_noon (Some user_b))
              (db_of three_in_hour) None (Some "generate-notes"))
    as [Hreturns Hzero].
  destruct (Hreturns eq_refl) as [st Hst].
  rewrite Hst. f_equal. exact (Hzero st (or_introl eq_refl) Hst).
Defined.

(** A request of user-b does not show in user-a's status. *)
Lemma status_ignores_other_rows_witness :
  Pg.get_rate_limit_status (at_noon (Some user_a))
    (Constraints.with_rate_limit_log (db_of three_in_hour)
       (entry "7e000000-0000-4000-8000-000000000009" user_b "generate-notes"
          (noon - minutes 5)))
    (Some user_a) (Some "generate-notes")
  = Pg.get_rate_limit_status (at_noon (Some user_a)) (db_of three_in_hour)
      (Some user_a) (Some "generate-notes").
Proof.
  apply StatusWindows.status_ignores_other_rows.
  left. cbn. discriminate.
Defined.

(** user-b asks for user-a's status. *)
Lemma status_guard_on_present_identities_witness :
  Pg.get_rate_limit_status (at_noon (Some user_b)) (db_of three_in_hour)
    (Some user_a) (Some "generate-notes")
  = (Thrown Pg.unauthorized, []).
Proof.
  refine (proj1 (StatusWindows.status_guard_on_present_identities
                   (at_noon (Some user_b)) (db_of three_in_hour)
                   user_b user_a (Some "generate-notes") eq_refl) _).
  discriminate.
Defined.

(** user-a submits a quiz: one audit row, found again under its id. *)
Lemma log_audit_event_appends_one_row_witness :
  exists row,
    Constraints.find_audit_log
      (snd (Pg.log_audit_event (at_noon None) (db_of [])
              (Some user_a) (Some "quiz_submitted") (Some "quiz") None None))
      (gen_random_uuid (at_noon None)) = Some row
    /\ al_action row = "quiz_submitted"
    /\ al_created_at row = noon.
Proof.
  destruct (AuditFacts.log_audit_event_appends_one_row
              (at_noon None) (db_of []) _
              (Some user_a) (Some "quiz_submitted") (Some "quiz") None None
              _ eq_refl)
    as [row [Hfind [_ [_ [_ [Haction [_ [_ [_ [Hcreated _]]]]]]]]]].
  exists row. split; [exact Hfind |]. split; [| exact Hcreated].
  now injection Haction.
Defined.

(** An audit event without an action. *)
Lemma log_audit_event_fails_atomically_witness :
  snd (Pg.log_audit_event (at_noon None) (db_of three_in_hour)
         (Some user_a) None (Some "quiz") None None)
  = db_of three_in_hour.
Proof.
  exact (proj1 (AuditFacts.log_audit_event_fails_atomically
                  (at_noon None) (db_of three_in_hour) _
                  (Some user_a) None (Some "quiz") None None _ eq_refl)).
Defined.

Lemma three_in_hour_well_formed :
  Constraints.well_formed (db_of three_in_hour).
Proof.
  unfold Constraints.well_formed. cbn. repeat split.
  - repeat constructor; cbn; intuition discriminate.
  - constructor.
  - intros r [<- | [<- | [<- | []]]]; cbn; auto.
  - intros a [].
Qed.

Lemma log_audit_event_keeps_constraints_witness :
  Constraints.well_formed
    (snd (Pg.log_audit_event (at_noon None) (db_of three_in_hour)
            (Some user_a) (Some "quiz_submitted") (Some "quiz") None None)).
Proof.
  exact (AuditFacts.log_audit_event_keeps_constraints
           (at_noon None) (db_of three_in_hour)
           (Some user_a) (Some "quiz_submitted") (Some "quiz") None None
           three_in_hour_well_formed).
Defined.

(** The fourth call of the hour, at noon. *)
Lemma denied_call_is_not_logged_witness :
  snd (Gate.serve_call notes_3_10 (db_of three_in_hour) call_at_noon)
    = db_of three_in_hour
  /\ (limitsPerHour notes_3_10
        <= Gate.hourly_count notes_3_10 (db_of three_in_hour) noon
      \/ limitsPerDay notes_3_10
           <= Gate.daily_count notes_3_10 (db_of three_in_hour) noon).
Proof.
  exact (GateStore.denied_call_is_not_logged notes_3_10
           (db_of three_in_hour) call_at_noon eq_refl).
Defined.

(** The same log seen at noon and 45 minutes later. *)
Lemma counts_shrink_with_time_witness :
  Gate.hourly_count notes_3_10 (db_of three_in_hour) noon
    <= Gate.daily_count notes_3_10 (db_of three_in_hour) noon
  /\ Gate.hourly_count notes_3_10 (db_of three_in_hour) (noon + minutes 45)
     <= Gate.hourly_count notes_3_10 (db_of three_in_hour) noon
  /\ Gate.daily_count notes_3_10 (db_of three_in_hour) (noon + minutes 45)
     <= Gate.daily_count notes_3_10 (db_of three_in_hour) noon.
Proof.
  refine (GateStore.counts_shrink_with_time notes_3_10 (db_of three_in_hour)
            noon (noon + minutes 45) _).
  unfold noon, minutes. lia.
Defined.

(** The first call on an empty log. *)
Lemma processed_call_is_counted_witness :
  fst (Gate.serve_call notes_3_10 (db_of []) call_at_noon) = true
  /\ Gate.hourly_count notes_3_10
       (snd (Gate.serve_call notes_3_10 (db_of []) call_at_noon))
       (noon + minutes 10)
     = Gate.hourly_count notes_3_10 (db_of []) (noon + minutes 10) + 1.
Proof.
  destruct (GateStore.processed_call_is_counted notes_3_10 (db_of [])
              call_at_noon)
    as [Hprocessed [Hhour _]].
  - cbn. now left.
  - intros r [].
  - cbn. lia.
  - cbn. lia.
  - split; [exact Hprocessed |]. apply Hhour.
    unfold call_at_noon, noon, minutes. cbn. lia.
Defined.

Lemma serve_call_keeps_constraints_witness :
  Constraints.well_formed
    (snd (Gate.serve_call notes_3_10 (db_of three_in_hour) call_at_noon)).
Proof.
  exact (GateStore.serve_call_keeps_constraints notes_3_10
           (db_of three_in_hour) call_at_noon three_in_hour_well_formed).
Defined.

End ExtraRuns.
